(** * push_data.py: CSV loader and MongoDB bulk inserter

    A shallow embedding of [src/push_data.py].  Python code that reads the
    process environment, the file system or the database is written in a
    state-and-exception monad over an explicit [world]; the third-party
    libraries the script calls (pandas, pymongo, certifi) are represented by
    the part of the world they observe or change. *)

From Stdlib Require Import String Ascii DecimalString DecimalNat SpecFloat.
From Stdlib Require Import Bool Arith NArith ZArith Lia List.
Import ListNotations.
Local Open Scope list_scope.

(** ** Python strings *)

(** A Python [str] is a sequence of Unicode code points. *)
Definition str := list N.

(** ASCII literals of the script. *)
Definition lit (s : string) : str := map N_of_ascii (list_ascii_of_string s).

Fixpoint str_eqb (a b : str) : bool :=
  match a, b with
  | [], [] => true
  | x :: a', y :: b' => N.eqb x y && str_eqb a' b'
  | _, _ => false
  end.

(** [str(n)] for a non-negative [int]. *)
Definition str_of_nat (n : nat) : str :=
  lit (NilZero.string_of_uint (Nat.to_uint n)).

(** [c.isspace()] on one code point: the code points CPython classifies as
    whitespace, which are the ones [str.strip()] removes. *)
Definition isspace (c : N) : bool :=
  (((9 <=? c) && (c <=? 13)) || ((28 <=? c) && (c <=? 32))
   || (c =? 133) || (c =? 160) || (c =? 5760)
   || ((8192 <=? c) && (c <=? 8202))
   || (c =? 8232) || (c =? 8233) || (c =? 8239) || (c =? 8287)
   || (c =? 12288))%N.

Fixpoint lstrip (s : str) : str :=
  match s with
  | [] => []
  | c :: t => if isspace c then lstrip t else s
  end.

Definition rstrip (s : str) : str := rev (lstrip (rev s)).

(** [s.strip()] *)
Definition strip (s : str) : str := rstrip (lstrip s).

(** Truth value of a [str]: the empty string is false. *)
Definition str_bool (s : str) : bool :=
  match s with [] => false | _ :: _ => true end.

(** [c in s] for one character [c]. *)
Definition str_has_char (c : N) (s : str) : bool := existsb (N.eqb c) s.

(** [s.startswith(p)] *)
Fixpoint startswith (p s : str) : bool :=
  match p, s with
  | [], _ => true
  | _ :: _, [] => false
  | x :: p', y :: s' => N.eqb x y && startswith p' s'
  end.

(** [t in s] *)
Fixpoint str_contains (t s : str) : bool :=
  startswith t s
  || match s with
     | [] => false
     | _ :: s' => str_contains t s'
     end.

(** The value of a decimal numeral, to read a printed count back. *)
Definition decimal_value (s : str) : option nat :=
  option_map Nat.of_uint
    (NilZero.uint_of_string (string_of_list_ascii (map ascii_of_N s))).

(** ** Cell values, documents and frames *)

(** The scalars a CSV cell or a document field can hold; a float is an
    IEEE-754 value, [VFloat S754_nan] being numpy's [nan]. *)
Inductive value :=
| VNone
| VBool (b : bool)
| VInt (z : Z)
| VFloat (f : spec_float)
| VStr (s : str)
| VObjectId (oid : N).

Definition is_nan (v : value) : bool :=
  match v with
  | VFloat S754_nan => true
  | _ => false
  end.

(** A Python [dict] with [str] keys: insertion-ordered, one entry per key. *)
Definition dict := list (str * value).

Fixpoint dict_get (k : str) (d : dict) : option value :=
  match d with
  | [] => None
  | (k', v) :: d' => if str_eqb k k' then Some v else dict_get k d'
  end.

(** [d[k] = v]: an existing key keeps its position, a new key goes last. *)
Fixpoint dict_set (k : str) (v : value) (d : dict) : dict :=
  match d with
  | [] => [(k, v)]
  | (k', v') :: d' =>
      if str_eqb k k' then (k', v) :: d' else (k', v') :: dict_set k v d'
  end.

(** One step of [dict(pairs)]: [d[k] = v] for the pair [(k, v)]. *)
Definition dict_step (d : dict) (kv : str * value) : dict :=
  dict_set (fst kv) (snd kv) d.

(** [dict(pairs)] *)
Definition dict_of (pairs : list (str * value)) : dict :=
  fold_left dict_step pairs [].

Definition keys (d : dict) : list str := map fst d.

Definition document := dict.

(** A pandas [DataFrame] as [read_csv] builds it: the column labels and the
    rows of cells in file order. *)
Record DataFrame := {
  columns : list str;
  rows : list (list value)
}.

(** Every row has one cell per column. *)
Definition frame_wf (df : DataFrame) : Prop :=
  Forall (fun r => length r = length (columns df)) (rows df).

(** ** Exceptions *)

Record write_error := {
  index : nat;
  code : Z;
  errmsg : str
}.

(** The checks the driver makes on a database name and on a collection
    name, in the order it makes them. *)
Inductive name_check :=
| Database_empty
| Database_character
| Collection_empty
| Collection_dollar
| Collection_dot
| Collection_null.

(** [BulkWriteError.details]: the driver's report of a bulk write. *)
Record bulk_details := {
  writeErrors : list write_error;
  nInserted : nat
}.

(** Modelled from the spec: the class [NetworkSecurityException] of
    [networksecurity.exception.exception], which is not among the sources.
    The spec describes it as the single exception kind into which every
    failure is wrapped, carrying the original cause: the constructor keeps
    its first argument (a message or the wrapped exception) and the
    [__cause__] set by [raise ... from].  The other constructors are the
    exceptions of the libraries: [ServerSelectionTimeoutError] and
    [BulkWriteError] are the driver's, and so is [InvalidName check name],
    raised for a database or collection name the driver refuses and kept
    here by the check that failed and the name (its message quotes the
    name); [OtherError cls msg] is any other [Exception] (a [TypeError], the
    driver's [OperationFailure], a parser error of pandas, ...) with its
    class name and message. *)
Inductive exception :=
| ServerSelectionTimeoutError (msg : str)
| BulkWriteError (details : bulk_details)
| InvalidName (check : name_check) (name : str)
| OtherError (cls : str) (msg : str)
| NetworkSecurityException (error_message : exc_arg) (cause : exc_cause)
with exc_arg :=
| Msg (s : str)
| Exc (e : exception)
with exc_cause :=
| NoCause
| From (e : exception).

(** [isinstance(e, NetworkSecurityException)] *)
Definition is_NetworkSecurityException (e : exception) : bool :=
  match e with
  | NetworkSecurityException _ _ => true
  | _ => false
  end.

(** [str(e)] for the driver's timeout error is its message. *)
Definition timeout_str (msg : str) : str := msg.

(** ** The world outside the script *)

(** Keyword arguments of a [MongoClient(...)] call. *)
Record client_kwargs := {
  host : str;
  tls : bool;
  tlsCAFile : str;
  serverSelectionTimeoutMS : Z
}.

Inductive event :=
| Ev_read_csv (path : str)
| Ev_MongoClient (kw : client_kwargs)
| Ev_ping
| Ev_insert_many (database collection : str) (docs : list document) (ordered : bool)
| Ev_log_bulk_error (details : bulk_details)
| Ev_print (line : str)
| Ev_print_exception (e : exception).

Inductive outcome (A : Type) :=
| Return (a : A)
| Raise (e : exception).
Arguments Return {A} a.
Arguments Raise {A} e.

(** The document store reached through the driver.  [connect_fault],
    [ping_fault] and [write_fault] are the exceptions, if any, with which
    client construction, the ping command and the bulk write as a whole
    fail; [rejects coll d] is the per-document verdict of the store on [d]
    given the current content [coll] of the collection (an error code and
    message, e.g. 11000 for a duplicate key); [data] is the content of each
    collection. *)
Record server := {
  connect_fault : option exception;
  ping_fault : option exception;
  write_fault : option exception;
  rejects : list document -> document -> option (Z * str);
  data : str -> str -> list document
}.

Record world := {
  environ : list (str * str);
  read_csv_result : str -> outcome DataFrame;
  certifi_where : str;
  mongo : server;
  next_oid : N;
  events : list event
}.

(** ** The monad of the script *)

Definition M (A : Type) : Type := world -> outcome A * world.

Definition ret {A} (a : A) : M A := fun w => (Return a, w).

Definition raise {A} (e : exception) : M A := fun w => (Raise e, w).

Definition bind {A B} (c : M A) (k : A -> M B) : M B :=
  fun w =>
    match c w with
    | (Return a, w') => k a w'
    | (Raise e, w') => (Raise e, w')
    end.

(** [try: body  except ... as e: handler e] *)
Definition try_except {A} (body : M A) (handler : exception -> M A) : M A :=
  fun w =>
    match body w with
    | (Return a, w') => (Return a, w')
    | (Raise e, w') => handler e w'
    end.

Declare Scope py_scope.
Delimit Scope py_scope with py.
Notation "x <- c ;; k" := (bind c (fun x => k))
  (at level 100, c at next level, right associativity) : py_scope.
Notation "c ;;; k" := (bind c (fun _ => k))
  (at level 100, right associativity) : py_scope.
Local Open Scope py_scope.

Definition add_event (ev : event) (w : world) : world :=
  {| environ := environ w; read_csv_result := read_csv_result w;
     certifi_where := certifi_where w; mongo := mongo w;
     next_oid := next_oid w; events := events w ++ [ev] |}.

Definition emit (ev : event) : M unit := fun w => (Return tt, add_event ev w).

(** [os.environ.get(name)] *)
Definition env_lookup (env : list (str * str)) (name : str) : option str :=
  option_map snd (find (fun kv => str_eqb name (fst kv)) env).

(** [os.getenv(name)] *)
Definition os_getenv (name : str) : M (option str) :=
  fun w => (Return (env_lookup (environ w) name), w).

(** [print(...)] *)
Definition print (line : str) : M unit := emit (Ev_print line).

(** ** push_data.py *)

Definition _require_env (name : str) : M str :=
  val <- os_getenv name ;;
  match val with
  | None =>
      raise (NetworkSecurityException
               (Msg (lit "Missing required environment variable: " ++ name)) NoCause)
  | Some v =>
      if negb (str_bool v) || negb (str_bool (strip v))
      then raise (NetworkSecurityException
                    (Msg (lit "Missing required environment variable: " ++ name)) NoCause)
      else ret v
  end.

(** [pandas.read_csv(file_path)]: the frame the library parses from the
    file, or the exception it raises (missing file, parser error). *)
Definition pd_read_csv (file_path : str) : M DataFrame :=
  emit (Ev_read_csv file_path) ;;;
  fun w => (read_csv_result w file_path, w).

(** [df.replace({np.nan: None})]: every NaN cell becomes [None]. *)
Definition nan_to_none (v : value) : value :=
  if is_nan v then VNone else v.

Definition df_replace_nan_none (df : DataFrame) : DataFrame :=
  {| columns := columns df;
     rows := map (map nan_to_none) (rows df) |}.

(** [df.to_dict(orient="records")]: one [dict(zip(columns, row))] per row. *)
Definition df_to_dict_records (df : DataFrame) : list dict :=
  map (fun row => dict_of (combine (columns df) row)) (rows df).

(** [certifi.where()] *)
Definition certifi_where_call : M str := fun w => (Return (certifi_where w), w).

(** [MongoClient(uri, **kw)]: the constructor records its arguments and
    fails with [connect_fault] when the store has one (an invalid URI, an
    SRV lookup that fails). *)
Definition MongoClient (kw : client_kwargs) : M client_kwargs :=
  emit (Ev_MongoClient kw) ;;;
  fun w =>
    match connect_fault (mongo w) with
    | Some e => (Raise e, w)
    | None => (Return kw, w)
    end.

Definition get_mongo_client (uri : str) : M client_kwargs :=
  ca <- certifi_where_call ;;
  MongoClient {| host := uri;
                 tls := true;
                 tlsCAFile := ca;
                 serverSelectionTimeoutMS := 15000 |}.

(** [client.admin.command("ping")] *)
Definition admin_command_ping (client : client_kwargs) : M unit :=
  emit Ev_ping ;;;
  fun w =>
    match ping_fault (mongo w) with
    | Some e => (Raise e, w)
    | None => (Return tt, w)
    end.

(** *** The driver's databases and collections *)

(** The characters the driver refuses in a database name: space, [.], [$],
    [/], backslash, the null character and the double quote. *)
Definition _INVALID_DB_CHARS : list N := [32; 46; 36; 47; 92; 0; 34]%N.

(** The driver's check of a database name: every name but ["$external"]
    must be non-empty and free of the characters above. *)
Definition database_name_check (name : str) : option exception :=
  if str_eqb name (lit "$external") then None
  else if negb (str_bool name) then Some (InvalidName Database_empty name)
  else if existsb (fun c => str_has_char c name) _INVALID_DB_CHARS
       then Some (InvalidName Database_character name)
  else None.

(** The driver's check of a collection name: not empty and without [..];
    no [$] unless the name starts with ["oplog.$main"] or ["$cmd"]; no [.]
    at either end; no null character. *)
Definition collection_name_check (name : str) : option exception :=
  if negb (str_bool name) || str_contains (lit "..") name
  then Some (InvalidName Collection_empty name)
  else if str_has_char 36 name
          && negb (startswith (lit "oplog.$main") name
                   || startswith (lit "$cmd") name)
       then Some (InvalidName Collection_dollar name)
  else if N.eqb (hd 0%N name) 46 || N.eqb (last name 0%N) 46
       then Some (InvalidName Collection_dot name)
  else if str_has_char 0 name then Some (InvalidName Collection_null name)
  else None.

Record Database := {
  db_client : client_kwargs;
  db_name : str
}.

Record Collection := {
  col_database : Database;
  col_name : str
}.

(** [client[name]]: the database handle, made without any traffic, or
    [InvalidName]. *)
Definition client_getitem (client : client_kwargs) (name : str) : M Database :=
  match database_name_check name with
  | Some e => raise e
  | None => ret {| db_client := client; db_name := name |}
  end.

(** [db[name]]: the collection handle, made without any traffic, or
    [InvalidName]. *)
Definition database_getitem (db : Database) (name : str) : M Collection :=
  match collection_name_check name with
  | Some e => raise e
  | None => ret {| col_database := db; col_name := name |}
  end.

(** *** The driver's [insert_many] *)

(** [InsertManyResult] *)
Record InsertManyResult := {
  inserted_ids : list value
}.

(** The driver gives every document without an ["_id"] a fresh [ObjectId]
    and collects the ids of all submitted documents. *)
Fixpoint assign_ids (oid : N) (docs : list document)
  : list document * list value * N :=
  match docs with
  | [] => ([], [], oid)
  | d :: ds =>
      match dict_get (lit "_id") d with
      | Some v =>
          let '(ds', ids, oid') := assign_ids oid ds in
          (d :: ds', v :: ids, oid')
      | None =>
          let '(ds', ids, oid') := assign_ids (N.succ oid) ds in
          (dict_set (lit "_id") (VObjectId oid) d :: ds', VObjectId oid :: ids, oid')
      end
  end.

(** The store applies the batch document by document.  A rejected document
    is reported with its position; an ordered batch stops there, an
    unordered one goes on with the remaining documents. *)
Fixpoint bulk_execute (rej : list document -> document -> option (Z * str))
    (ordered : bool) (idx : nat) (coll : list document) (docs : list document)
  : list document * list write_error * nat :=
  match docs with
  | [] => (coll, [], 0)
  | d :: ds =>
      match rej coll d with
      | Some (c, m) =>
          let err := {| index := idx; code := c; errmsg := m |} in
          if ordered then (coll, [err], 0)
          else
            let '(coll', errs, n) := bulk_execute rej ordered (S idx) coll ds in
            (coll', err :: errs, n)
      | None =>
          let '(coll', errs, n) :=
            bulk_execute rej ordered (S idx) (coll ++ [d]) ds in
          (coll', errs, S n)
      end
  end.

Definition set_data (s : server) (database collection : str)
    (coll : list document) : server :=
  {| connect_fault := connect_fault s;
     ping_fault := ping_fault s;
     write_fault := write_fault s;
     rejects := rejects s;
     data := fun d c =>
       if str_eqb d database && str_eqb c collection then coll else data s d c |}.

Definition set_next_oid (oid : N) (w : world) : world :=
  {| environ := environ w; read_csv_result := read_csv_result w;
     certifi_where := certifi_where w; mongo := mongo w;
     next_oid := oid; events := events w |}.

Definition set_mongo (s : server) (w : world) : world :=
  {| environ := environ w; read_csv_result := read_csv_result w;
     certifi_where := certifi_where w; mongo := s;
     next_oid := next_oid w; events := events w |}.

(** [client[database][collection].insert_many(documents, ordered=...)]: an
    empty list is refused with a [TypeError] before anything is sent; a
    batch with rejected documents raises [BulkWriteError]; otherwise the
    result holds one id per submitted document. *)
Definition insert_many (client : client_kwargs) (database collection : str)
    (documents : list document) (ordered : bool) : M InsertManyResult :=
  match documents with
  | [] => raise (OtherError (lit "TypeError") (lit "documents must be a non-empty list"))
  | _ :: _ =>
      fun w =>
        let '(docs, ids, oid) := assign_ids (next_oid w) documents in
        let w1 :=
          add_event (Ev_insert_many database collection docs ordered)
            (set_next_oid oid w) in
        match write_fault (mongo w) with
        | Some e => (Raise e, w1)
        | None =>
            let '(coll, errs, n) :=
              bulk_execute (rejects (mongo w)) ordered 0
                (data (mongo w) database collection) docs in
            let w2 := set_mongo (set_data (mongo w1) database collection coll) w1 in
            match errs with
            | [] => (Return {| inserted_ids := ids |}, w2)
            | _ :: _ =>
                (Raise (BulkWriteError {| writeErrors := errs; nInserted := n |}), w2)
            end
        end
  end.

(** [logging.error(f"Bulk write error: {bwe.details}")] *)
Definition logging_error_bulk (details : bulk_details) : M unit :=
  emit (Ev_log_bulk_error details).

(** *** class NetworkDataExtract *)

Module NetworkDataExtract.

Record t := { mongo_uri : str }.

Definition __init__ : M t :=
  try_except
    (uri <- _require_env (lit "MONGO_DB_URL") ;;
     ret {| mongo_uri := uri |})
    (fun e => raise (NetworkSecurityException (Exc e) NoCause)).

Definition csv_to_json_convertor (self : t) (file_path : str) : M (list dict) :=
  try_except
    (df <- pd_read_csv file_path ;;
     let df := df_replace_nan_none df in
     let records := df_to_dict_records df in
     ret records)
    (fun e => raise (NetworkSecurityException (Exc e) NoCause)).

(** The [try] block of [insert_data_mongodb]. *)
Definition insert_body (self : t) (records : list document)
    (database collection : str) : M nat :=
  client <- get_mongo_client (mongo_uri self) ;;
  admin_command_ping client ;;;
  db <- client_getitem client database ;;
  col <- database_getitem db collection ;;
  result <- insert_many (db_client (col_database col))
              (db_name (col_database col)) (col_name col) records false ;;
  ret (length (inserted_ids result)).

Definition connect_message (cause : str) : str :=
  lit "Cannot connect to MongoDB: " ++ cause ++ lit ". "
  ++ lit "Check: (1) IP allowlist in Atlas, (2) URI uses mongodb+srv, "
  ++ lit "(3) network/proxy SSL inspection, (4) system certs.".

(** The [except] clauses of [insert_data_mongodb], tried in order. *)
Definition insert_handler (e : exception) : M nat :=
  match e with
  | BulkWriteError details =>
      logging_error_bulk details ;;;
      let inserted := length (writeErrors details) in
      raise (NetworkSecurityException (Exc e) (From e))
  | ServerSelectionTimeoutError msg =>
      raise (NetworkSecurityException
               (Msg (connect_message (timeout_str msg))) (From e))
  | _ => raise (NetworkSecurityException (Exc e) NoCause)
  end.

Definition insert_data_mongodb (self : t) (records : list document)
    (database collection : str) : M nat :=
  try_except (insert_body self records database collection) insert_handler.

End NetworkDataExtract.

(** *** The entry point *)

Definition FILE_PATH : str := lit "Network_Data/phisingData.csv".
Definition DATABASE : str := lit "CHARUKAGUN".
Definition COLLECTION : str := lit "NetworkData".

Definition main : M unit :=
  try_except
    (extractor <- NetworkDataExtract.__init__ ;;
     records <- NetworkDataExtract.csv_to_json_convertor extractor FILE_PATH ;;
     print (lit "Loaded " ++ str_of_nat (length records) ++ lit " records from CSV") ;;;
     n <- NetworkDataExtract.insert_data_mongodb extractor records DATABASE COLLECTION ;;
     print (lit "Inserted " ++ str_of_nat n ++ lit " records"))
    (fun e => emit (Ev_print_exception e) ;;; raise e).

(** ** Notions used by the statements *)

Import NetworkDataExtract.

(** The client [insert_data_mongodb] creates. *)
Definition client_of (self : t) (w : world) : client_kwargs :=
  {| host := mongo_uri self; tls := true; tlsCAFile := certifi_where w;
     serverSelectionTimeoutMS := 15000 |}.

(** The world once the client exists and the ping was sent. *)
Definition pinged (self : t) (w : world) : world :=
  add_event Ev_ping (add_event (Ev_MongoClient (client_of self w)) w).

(** What the [except] clauses raise for [e]. *)
Definition wrapped (e : exception) : exception :=
  match e with
  | BulkWriteError _ => NetworkSecurityException (Exc e) (From e)
  | ServerSelectionTimeoutError msg =>
      NetworkSecurityException (Msg (connect_message msg)) (From e)
  | _ => NetworkSecurityException (Exc e) NoCause
  end.

(** The world after the [except] clause for [e] ran: only the bulk-write
    clause logs. *)
Definition handled (e : exception) (w : world) : world :=
  match e with
  | BulkWriteError details => add_event (Ev_log_bulk_error details) w
  | _ => w
  end.

(** The records built from a parsed frame. *)
Definition records_of (df : DataFrame) : list dict :=
  df_to_dict_records (df_replace_nan_none df).


(** The connection string is absent or blank: empty or whitespace only. *)
Definition blank (val : option str) : bool :=
  match val with
  | None => true
  | Some v => forallb isspace v
  end.

(** The configuration error that leaves the constructor: the error of
    [_require_env], wrapped once more by [__init__]. *)
Definition config_error (name : str) : exception :=
  NetworkSecurityException
    (Exc (NetworkSecurityException
            (Msg (lit "Missing required environment variable: " ++ name)) NoCause))
    NoCause.

(** [t] occurs in [s]. *)
Definition occurs_in (t s : str) : Prop := exists a b, s = a ++ t ++ b.

(** A failure of [insert_data_mongodb] classified as a connectivity failure:
    the wrapped exception built by the timeout clause, whose message is the
    connection diagnostic with its remediation hint. *)
Definition connectivity_failure (o : outcome nat) : Prop :=
  exists cause c, o = Raise (NetworkSecurityException
                              (Msg (connect_message cause)) c).

Definition is_insert_many (ev : event) : bool :=
  match ev with
  | Ev_insert_many _ _ _ _ => true
  | _ => false
  end.

(** The bulk write was invoked at some point of the trace. *)
Definition write_attempted (evs : list event) : bool := existsb is_insert_many evs.

(** The store takes each of the submitted documents. *)
Definition all_accepted (w : world) (database collection : str)
    (records : list document) : Prop :=
  snd (fst (bulk_execute (rejects (mongo w)) false 0
              (data (mongo w) database collection)
              (fst (fst (assign_ids (next_oid w) records))))) = [].

(** ** Test doubles *)

Definition same_key (key : str) (d d' : document) : bool :=
  match dict_get key d, dict_get key d' with
  | Some (VInt a), Some (VInt b) => Z.eqb a b
  | Some (VStr a), Some (VStr b) => str_eqb a b
  | _, _ => false
  end.

(** A store with a unique index on [key]: a document whose [key] is already
    in the collection is refused as a duplicate (error 11000). *)
Definition unique_index (key : str) (coll : list document) (d : document)
  : option (Z * str) :=
  if existsb (same_key key d) coll
  then Some (11000%Z, lit "E11000 duplicate key error")
  else None.

Definition open_store : server :=
  {| connect_fault := None; ping_fault := None; write_fault := None;
     rejects := fun _ _ => None;
     data := fun _ _ => [] |}.

Definition unique_store : server :=
  {| connect_fault := None; ping_fault := None; write_fault := None;
     rejects := unique_index (lit "id");
     data := fun _ _ => [] |}.

Definition no_ping_store (e : exception) : server :=
  {| connect_fault := None; ping_fault := Some e; write_fault := None;
     rejects := fun _ _ => None;
     data := fun _ _ => [] |}.

(** A three-row file with one empty cell. *)
Definition sample_frame : DataFrame :=
  {| columns := [lit "id"; lit "url"];
     rows := [ [VInt 1; VStr (lit "a.example")];
               [VInt 2; VFloat S754_nan];
               [VInt 3; VStr (lit "c.example")] ] |}.

Definition sample_world (s : server) : world :=
  {| environ := [(lit "MONGO_DB_URL", lit "mongodb+srv://u:p@cluster0.example.net")];
     read_csv_result := fun p =>
       if str_eqb p FILE_PATH then Return sample_frame
       else Raise (OtherError (lit "FileNotFoundError") p);
     certifi_where := lit "/opt/certifi/cacert.pem";
     mongo := s;
     next_oid := 0;
     events := [] |}.

Definition sample_self : NetworkDataExtract.t :=
  {| NetworkDataExtract.mongo_uri := lit "mongodb+srv://u:p@cluster0.example.net" |}.

(** Two rows with the same unique-indexed key. *)
Definition duplicate_records : list document :=
  [ [(lit "id", VInt 7); (lit "url", VStr (lit "a.example"))];
    [(lit "id", VInt 7); (lit "url", VStr (lit "b.example"))] ].

Definition auth_failure : exception :=
  OtherError (lit "OperationFailure") (lit "bad auth : authentication failed").

(** ** Notions used by the further properties *)

(** The driver accepts both names. *)
Definition names_accepted (database collection : str) : bool :=
  match database_name_check database, collection_name_check collection with
  | None, None => true
  | _, _ => false
  end.

(** Something was printed. *)
Definition is_print (ev : event) : bool :=
  match ev with
  | Ev_print _ | Ev_print_exception _ => true
  | _ => false
  end.

Definition is_ping (ev : event) : bool :=
  match ev with
  | Ev_ping => true
  | _ => false
  end.

(** What the [except] clause for [e] logs. *)
Definition log_of (e : exception) : list event :=
  match e with
  | BulkWriteError details => [Ev_log_bulk_error details]
  | _ => []
  end.

(** The documents the driver sends for [records]: each with its ["_id"]. *)
Definition submitted (w : world) (records : list document) : list document :=
  fst (fst (assign_ids (next_oid w) records)).

(** The two lines the entry point prints. *)
Definition loaded_line (n : nat) : str :=
  lit "Loaded " ++ str_of_nat n ++ lit " records from CSV".

Definition inserted_line (n : nat) : str :=
  lit "Inserted " ++ str_of_nat n ++ lit " records".

(** The conditions under which a run of the entry point goes through: the
    connection string is set, the file parses into at least one row, the
    store is reachable and takes every document. *)
Definition run_conditions (w : world) (uri : str) (df : DataFrame) : Prop :=
  env_lookup (environ w) (lit "MONGO_DB_URL") = Some uri
  /\ forallb isspace uri = false
  /\ read_csv_result w FILE_PATH = Return df
  /\ rows df <> []
  /\ connect_fault (mongo w) = None
  /\ ping_fault (mongo w) = None
  /\ write_fault (mongo w) = None
  /\ all_accepted w DATABASE COLLECTION (records_of df).

(** * Properties *)

(** ** Strings *)

Lemma str_eqb_refl (a : str) : str_eqb a a = true.
Proof.
  induction a as [|x a IH]; simpl; [reflexivity|].
  now rewrite N.eqb_refl, IH.
Qed.

Lemma str_eqb_eq (a b : str) : str_eqb a b = true <-> a = b.
Proof.
  split.
  - revert b. induction a as [|x a IH]; intros [|y b]; simpl; try congruence.
    intros H. apply andb_true_iff in H as [Hx Hab].
    apply N.eqb_eq in Hx. apply IH in Hab. congruence.
  - intros ->. apply str_eqb_refl.
Qed.

Lemma str_eqb_neq (a b : str) : str_eqb a b = false <-> a <> b.
Proof.
  destruct (str_eqb a b) eqn:E.
  - apply str_eqb_eq in E. split; congruence.
  - split; [|reflexivity]. intros _ H. apply str_eqb_eq in H. congruence.
Qed.

Lemma lstrip_nil_iff (s : str) : lstrip s = [] <-> forallb isspace s = true.
Proof.
  induction s as [|c s IH]; simpl; [tauto|].
  destruct (isspace c); simpl; [exact IH|].
  split; discriminate.
Qed.

Lemma lstrip_head (s : str) :
  lstrip s = [] \/ exists c t, lstrip s = c :: t /\ isspace c = false.
Proof.
  induction s as [|c s IH]; simpl; [now left|].
  destruct (isspace c) eqn:E; [exact IH|].
  right. now exists c, s.
Qed.

Lemma forallb_rev {A} (f : A -> bool) (l : list A) :
  forallb f (rev l) = forallb f l.
Proof.
  induction l as [|x l IH]; simpl; [reflexivity|].
  rewrite forallb_app, IH. simpl. rewrite andb_true_r. apply andb_comm.
Qed.

(** Stripping leaves nothing exactly when every character is whitespace. *)
Lemma strip_nil_iff (s : str) : strip s = [] <-> forallb isspace s = true.
Proof.
  unfold strip, rstrip. split.
  - intros H.
    assert (H1 : lstrip (rev (lstrip s)) = []).
    { destruct (lstrip (rev (lstrip s))) as [|c0 l0]; [reflexivity|].
      simpl in H. destruct (rev l0); discriminate. }
    apply lstrip_nil_iff in H1. rewrite forallb_rev in H1.
    destruct (lstrip_head s) as [E | (c & t & E & Hc)].
    + now apply lstrip_nil_iff.
    + rewrite E in H1. simpl in H1. rewrite Hc in H1. discriminate.
  - intros H. apply lstrip_nil_iff in H. rewrite H. reflexivity.
Qed.

Lemma str_bool_false (s : str) : str_bool s = false <-> s = [].
Proof. destruct s; simpl; split; congruence. Qed.

(** The test of [_require_env] is the blank test. *)
Lemma require_env_test (v : str) :
  negb (str_bool v) || negb (str_bool (strip v)) = forallb isspace v.
Proof.
  destruct (forallb isspace v) eqn:E.
  - apply strip_nil_iff in E. rewrite E. simpl. apply orb_true_r.
  - destruct v as [|c v]; [discriminate|]. simpl negb at 1. simpl orb.
    destruct (str_bool (strip (c :: v))) eqn:B; [reflexivity|].
    apply str_bool_false, strip_nil_iff in B. congruence.
Qed.

(** ** Construction *)

Lemma require_env_run (name : str) (w : world) :
  _require_env name w =
    if blank (env_lookup (environ w) name)
    then (Raise (NetworkSecurityException
                   (Msg (lit "Missing required environment variable: " ++ name))
                   NoCause), w)
    else match env_lookup (environ w) name with
         | Some v => (Return v, w)
         | None => (Return [], w)
         end.
Proof.
  unfold _require_env, bind, os_getenv.
  destruct (env_lookup (environ w) name) as [v|]; simpl; [|reflexivity].
  rewrite require_env_test. now destruct (forallb isspace v).
Qed.

(** C3: when the connection-string variable [MONGO_DB_URL] is absent or
    blank (empty or whitespace only), constructing the inserter fails with
    the configuration error and the world is untouched: no client was
    created, nothing was read or sent.  When it is present and not blank,
    construction succeeds, stores the URI and touches nothing either. *)
Theorem init_validates_connection_string (w : world) :
  let val := env_lookup (environ w) (lit "MONGO_DB_URL") in
  (blank val = true ->
   NetworkDataExtract.__init__ w = (Raise (config_error (lit "MONGO_DB_URL")), w))
  /\ (forall uri, val = Some uri -> blank val = false ->
      NetworkDataExtract.__init__ w =
        (Return {| NetworkDataExtract.mongo_uri := uri |}, w)).
Proof.
  intros val. unfold NetworkDataExtract.__init__, try_except, bind.
  rewrite require_env_run. fold val. split.
  - intros ->. reflexivity.
  - intros uri Hv ->. rewrite Hv. reflexivity.
Qed.

Lemma init_validates_connection_string_witness :
  NetworkDataExtract.__init__ (sample_world open_store) =
    (Return sample_self, sample_world open_store)
  /\ NetworkDataExtract.__init__ (add_event Ev_ping (set_next_oid 3
       {| environ := [(lit "MONGO_DB_URL", lit "   ")];
          read_csv_result := fun _ => Raise auth_failure;
          certifi_where := []; mongo := open_store; next_oid := 0;
          events := [] |})) =
     (Raise (config_error (lit "MONGO_DB_URL")),
      add_event Ev_ping (set_next_oid 3
       {| environ := [(lit "MONGO_DB_URL", lit "   ")];
          read_csv_result := fun _ => Raise auth_failure;
          certifi_where := []; mongo := open_store; next_oid := 0;
          events := [] |})).
Proof.
  split.
  - apply (proj2 (init_validates_connection_string (sample_world open_store)));
      reflexivity.
  - apply (proj1 (init_validates_connection_string _)). reflexivity.
Defined.

(** ** The client *)

(** C8: whatever the URI, [get_mongo_client] calls the driver's constructor
    exactly once, with TLS switched on, the CA file of the trusted bundle
    ([certifi.where()]) and a server-selection timeout of 15000 ms; the
    client it returns, if the constructor does not fail, is that one. *)
Theorem get_mongo_client_is_secure (uri : str) (w : world) :
  exists kw,
    events (snd (get_mongo_client uri w)) = events w ++ [Ev_MongoClient kw]
    /\ host kw = uri
    /\ tls kw = true
    /\ tlsCAFile kw = certifi_where w
    /\ serverSelectionTimeoutMS kw = 15000%Z
    /\ (fst (get_mongo_client uri w) = Return kw
        \/ exists e, connect_fault (mongo w) = Some e
                     /\ fst (get_mongo_client uri w) = Raise e).
Proof.
  eexists. unfold get_mongo_client, MongoClient, bind, certifi_where_call, emit.
  simpl. destruct (connect_fault (mongo w)) as [e|] eqn:F; simpl.
  - repeat split. right. exists e. split; reflexivity.
  - repeat split. left. reflexivity.
Qed.

(** ** Insertion *)

Lemma insert_handler_run (e : exception) (w : world) :
  insert_handler e w = (Raise (wrapped e), handled e w).
Proof. destruct e; reflexivity. Qed.

Lemma wrapped_is_NSE (e : exception) : is_NetworkSecurityException (wrapped e) = true.
Proof. destruct e; reflexivity. Qed.

Lemma insert_run (self : t) records database collection (w : world) :
  insert_data_mongodb self records database collection w =
    match insert_body self records database collection w with
    | (Return n, w') => (Return n, w')
    | (Raise e, w') => (Raise (wrapped e), handled e w')
    end.
Proof.
  unfold insert_data_mongodb, try_except.
  destruct (insert_body self records database collection w) as [[n|e] w'];
    [reflexivity | apply insert_handler_run].
Qed.

Lemma insert_body_connect_fault (self : t) records database collection w e :
  connect_fault (mongo w) = Some e ->
  insert_body self records database collection w =
    (Raise e, add_event (Ev_MongoClient (client_of self w)) w).
Proof.
  intros F. unfold insert_body, get_mongo_client, MongoClient, bind,
    certifi_where_call, emit. simpl. rewrite F. reflexivity.
Qed.

Lemma insert_body_ping_fault (self : t) records database collection w e :
  connect_fault (mongo w) = None ->
  ping_fault (mongo w) = Some e ->
  insert_body self records database collection w = (Raise e, pinged self w).
Proof.
  intros F P. unfold insert_body, get_mongo_client, MongoClient,
    admin_command_ping, bind, certifi_where_call, emit. simpl.
  rewrite F. simpl. rewrite P. reflexivity.
Qed.

Lemma insert_body_reachable (self : t) records database collection w :
  connect_fault (mongo w) = None ->
  ping_fault (mongo w) = None ->
  insert_body self records database collection w =
    match database_name_check database, collection_name_check collection with
    | Some e, _ => (Raise e, pinged self w)
    | None, Some e => (Raise e, pinged self w)
    | None, None =>
        match insert_many (client_of self w) database collection records false
                (pinged self w) with
        | (Return r, w') => (Return (length (inserted_ids r)), w')
        | (Raise e, w') => (Raise e, w')
        end
    end.
Proof.
  intros F P. unfold insert_body, get_mongo_client, MongoClient,
    admin_command_ping, client_getitem, database_getitem, bind,
    certifi_where_call, emit. simpl.
  rewrite F. simpl. rewrite P.
  destruct (database_name_check database); [reflexivity|].
  destruct (collection_name_check collection); reflexivity.
Qed.

(** With names the driver accepts, a reachable store gets the batch. *)
Lemma insert_body_accepted (self : t) records database collection w :
  connect_fault (mongo w) = None ->
  ping_fault (mongo w) = None ->
  database_name_check database = None ->
  collection_name_check collection = None ->
  insert_body self records database collection w =
    match insert_many (client_of self w) database collection records false
            (pinged self w) with
    | (Return r, w') => (Return (length (inserted_ids r)), w')
    | (Raise e, w') => (Raise e, w')
    end.
Proof.
  intros F P D C. rewrite (insert_body_reachable _ _ _ _ _ F P), D, C.
  reflexivity.
Qed.

(** The batch is sent only under names the driver accepts. *)
Lemma insert_body_refused (self : t) records database collection w :
  connect_fault (mongo w) = None ->
  ping_fault (mongo w) = None ->
  names_accepted database collection = false ->
  exists check name,
    insert_body self records database collection w =
      (Raise (InvalidName check name), pinged self w).
Proof.
  intros F P N. rewrite (insert_body_reachable _ _ _ _ _ F P).
  unfold names_accepted in N.
  unfold database_name_check, collection_name_check in *.
  repeat match goal with
         | |- context [if ?b then _ else _] => destruct b
         | H : context [if ?b then _ else _] |- _ => destruct b
         end; try discriminate; eauto.
Qed.

Lemma assign_ids_length (docs : list document) (oid : N) :
  length (snd (fst (assign_ids oid docs))) = length docs
  /\ length (fst (fst (assign_ids oid docs))) = length docs.
Proof.
  revert oid. induction docs as [|d ds IH]; intros oid; simpl; [auto|].
  destruct (dict_get (lit "_id") d).
  - specialize (IH oid). destruct (assign_ids oid ds) as [[ds' ids] oid'].
    simpl in *. lia.
  - specialize (IH (N.succ oid)).
    destruct (assign_ids (N.succ oid) ds) as [[ds' ids] oid']. simpl in *. lia.
Qed.

(** A result of the driver's [insert_many] holds one id per submitted
    document. *)
Lemma insert_many_ids (client : client_kwargs) database collection documents
    ordered (w w' : world) (r : InsertManyResult) :
  insert_many client database collection documents ordered w = (Return r, w') ->
  length (inserted_ids r) = length documents.
Proof.
  unfold insert_many. destruct documents as [|d ds]; [discriminate|].
  generalize (assign_ids_length (d :: ds) (next_oid w)).
  destruct (assign_ids (next_oid w) (d :: ds)) as [[docs ids] oid].
  intros [Hids _]. simpl fst in Hids. simpl snd in Hids.
  destruct (write_fault (mongo w)); [discriminate|].
  destruct (bulk_execute _ _ _ _ _) as [[coll errs] n].
  destruct errs; [|discriminate].
  intros H. inversion H. subst. exact Hids.
Qed.

(** Whatever leaves the [try] block normally is the number of records. *)
Lemma insert_returns_length (self : t) records database collection w w' n :
  insert_data_mongodb self records database collection w = (Return n, w') ->
  n = length records.
Proof.
  rewrite insert_run. unfold insert_body, bind.
  destruct (get_mongo_client (mongo_uri self) w) as [[client|e] w1];
    [|discriminate].
  destruct (admin_command_ping client w1) as [[u|e] w2]; [|discriminate].
  destruct (client_getitem client database w2) as [[db|e] w3]; [|discriminate].
  destruct (database_getitem db collection w3) as [[col|e] w4]; [|discriminate].
  destruct (insert_many _ _ _ records false w4) as [[r|e] w5] eqn:E;
    [|discriminate].
  unfold ret. intros H. inversion H. subst.
  eapply insert_many_ids; eassumption.
Qed.

(** C1, on the code: for a submission of two records of which the store
    refuses the second as a duplicate, [insert_data_mongodb] stores the first
    document, logs the driver's report and then raises the wrapped
    [BulkWriteError]; it does not return the count 1. *)
Theorem duplicate_batch_raises :
  let run := insert_data_mongodb sample_self duplicate_records DATABASE COLLECTION
               (sample_world unique_store) in
  fst run =
    Raise (wrapped (BulkWriteError
             {| writeErrors :=
                  [{| index := 1; code := 11000;
                      errmsg := lit "E11000 duplicate key error" |}];
                nInserted := 1 |}))
  /\ fst run <> Return 1
  /\ length (data (mongo (snd run)) DATABASE COLLECTION) = 1.
Proof.
  vm_compute. repeat split. discriminate.
Qed.

(** Every batch in which the store refuses a document ends in the wrapped
    exception, never in a count. *)
Lemma bulk_write_error_raises (self : t) records database collection w w' d :
  insert_body self records database collection w = (Raise (BulkWriteError d), w') ->
  insert_data_mongodb self records database collection w =
    (Raise (NetworkSecurityException (Exc (BulkWriteError d)) (From (BulkWriteError d))),
     add_event (Ev_log_bulk_error d) w').
Proof. intros H. rewrite insert_run, H. reflexivity. Qed.

Lemma write_attempted_app (a b : list event) :
  write_attempted (a ++ b) = write_attempted a || write_attempted b.
Proof. apply existsb_app. Qed.

(** C2, as the code has it: when the client was created and the ping fails
    with [e], [insert_data_mongodb] raises the wrapped exception for [e], the
    bulk write is not invoked and the store is left as it was.  The failure
    is a connectivity failure, with the remediation hint, when [e] is the
    driver's server-selection timeout. *)
Theorem ping_failure_aborts (self : t) records database collection
    (w : world) (e : exception) :
  connect_fault (mongo w) = None ->
  ping_fault (mongo w) = Some e ->
  let run := insert_data_mongodb self records database collection w in
  fst run = Raise (wrapped e)
  /\ (exists new, events (snd run) = events w ++ new
                  /\ write_attempted new = false)
  /\ mongo (snd run) = mongo w
  /\ (forall msg, e = ServerSelectionTimeoutError msg ->
      connectivity_failure (fst run)).
Proof.
  intros F P run. subst run. rewrite insert_run.
  rewrite (insert_body_ping_fault _ _ _ _ _ _ F P). simpl. split; [reflexivity|].
  split; [|split].
  - destruct e; simpl; rewrite <- ?app_assoc; eexists; (split; [reflexivity|]);
      reflexivity.
  - destruct e; reflexivity.
  - intros msg ->. unfold connectivity_failure. simpl. eauto.
Qed.

Lemma ping_failure_aborts_witness :
  let run := insert_data_mongodb sample_self duplicate_records DATABASE COLLECTION
               (sample_world (no_ping_store (ServerSelectionTimeoutError
                                               (lit "No servers found yet")))) in
  connectivity_failure (fst run)
  /\ mongo (snd run) =
     no_ping_store (ServerSelectionTimeoutError (lit "No servers found yet")).
Proof.
  intros run.
  destruct (ping_failure_aborts sample_self duplicate_records DATABASE COLLECTION
              (sample_world (no_ping_store (ServerSelectionTimeoutError
                                              (lit "No servers found yet"))))
              (ServerSelectionTimeoutError (lit "No servers found yet"))
              eq_refl eq_refl) as (_ & _ & Hm & Hc).
  split; [exact (Hc _ eq_refl) | exact Hm].
Defined.

(** A ping that fails for another reason than server selection, here a
    refused authentication, is not classified as a connectivity failure: it
    leaves through the catch-all clause. *)
Lemma ping_auth_failure_unclassified :
  let w := sample_world (no_ping_store auth_failure) in
  let run := insert_data_mongodb sample_self duplicate_records DATABASE COLLECTION w in
  ping_fault (mongo w) = Some auth_failure
  /\ fst run = Raise (NetworkSecurityException (Exc auth_failure) NoCause)
  /\ ~ connectivity_failure (fst run).
Proof.
  intros w run. split; [reflexivity|]. split; [reflexivity|].
  intros (cause & c & H). vm_compute in H. discriminate H.
Qed.

Lemma occurs_in_suffix (t pre s : str) : occurs_in t s -> occurs_in t (pre ++ s).
Proof.
  intros (a & b & ->). exists (pre ++ a), b. now rewrite <- app_assoc.
Qed.

Lemma occurs_in_prefix (t s post : str) : occurs_in t s -> occurs_in t (s ++ post).
Proof.
  intros (a & b & ->). exists a, (b ++ post). now rewrite <- !app_assoc.
Qed.

Lemma occurs_in_self (t : str) : occurs_in t t.
Proof. exists [], []. now rewrite app_nil_r. Qed.

(** The remediation hint names the four checks. *)
Lemma hint_in_connect_message (cause : str) :
  occurs_in cause (connect_message cause)
  /\ occurs_in (lit "IP allowlist") (connect_message cause)
  /\ occurs_in (lit "URI uses mongodb+srv") (connect_message cause)
  /\ occurs_in (lit "proxy SSL inspection") (connect_message cause)
  /\ occurs_in (lit "system certs") (connect_message cause).
Proof.
  unfold connect_message. repeat split.
  - apply occurs_in_suffix, occurs_in_prefix, occurs_in_self.
  - do 3 apply occurs_in_suffix. apply occurs_in_prefix.
    exists (lit "Check: (1) "), (lit " in Atlas, (2) URI uses mongodb+srv, ").
    reflexivity.
  - do 3 apply occurs_in_suffix. apply occurs_in_prefix.
    exists (lit "Check: (1) IP allowlist in Atlas, (2) "), (lit ", ").
    reflexivity.
  - do 4 apply occurs_in_suffix.
    exists (lit "(3) network/"), (lit ", (4) system certs.").
    reflexivity.
  - do 4 apply occurs_in_suffix.
    exists (lit "(3) network/proxy SSL inspection, (4) "), (lit ".").
    reflexivity.
Qed.

(** C7: when server selection fails inside [insert_data_mongodb] (the driver
    raises [ServerSelectionTimeoutError] with message [msg]), the call raises
    the wrapped exception, caused by the driver's error, whose message holds
    [msg] and the hint on the IP allowlist, the URI scheme, SSL inspection by
    a proxy and the system certificates; no count is returned. *)
Theorem server_selection_failure_reported (self : t) records database collection
    (w w' : world) (msg : str) :
  insert_body self records database collection w =
    (Raise (ServerSelectionTimeoutError msg), w') ->
  let run := insert_data_mongodb self records database collection w in
  run = (Raise (NetworkSecurityException (Msg (connect_message msg))
                  (From (ServerSelectionTimeoutError msg))), w')
  /\ occurs_in msg (connect_message msg)
  /\ occurs_in (lit "IP allowlist") (connect_message msg)
  /\ occurs_in (lit "URI uses mongodb+srv") (connect_message msg)
  /\ occurs_in (lit "proxy SSL inspection") (connect_message msg)
  /\ occurs_in (lit "system certs") (connect_message msg)
  /\ (forall n, fst run <> Return n).
Proof.
  intros H run. subst run. rewrite insert_run, H. simpl.
  destruct (hint_in_connect_message msg) as (H1 & H2 & H3 & H4 & H5).
  repeat (split; [assumption || reflexivity|]). intros n. discriminate.
Qed.

Lemma server_selection_failure_reported_witness :
  fst (insert_data_mongodb sample_self duplicate_records DATABASE COLLECTION
         (sample_world (no_ping_store (ServerSelectionTimeoutError
                                         (lit "No servers found yet"))))) =
  Raise (NetworkSecurityException
           (Msg (lit "Cannot connect to MongoDB: No servers found yet. Check: (1) IP allowlist in Atlas, (2) URI uses mongodb+srv, (3) network/proxy SSL inspection, (4) system certs."))
           (From (ServerSelectionTimeoutError (lit "No servers found yet")))).
Proof.
  pose proof (server_selection_failure_reported sample_self duplicate_records
                DATABASE COLLECTION
                (sample_world (no_ping_store (ServerSelectionTimeoutError
                                                (lit "No servers found yet"))))
                _ (lit "No servers found yet") eq_refl) as H.
  destruct H as (H & _). rewrite H. reflexivity.
Defined.

Lemma insert_all_accepted (self : t) records database collection (w : world) :
  connect_fault (mongo w) = None ->
  ping_fault (mongo w) = None ->
  database_name_check database = None ->
  collection_name_check collection = None ->
  write_fault (mongo w) = None ->
  records <> [] ->
  all_accepted w database collection records ->
  fst (insert_data_mongodb self records database collection w) =
    Return (length records).
Proof.
  intros F P D C Wf Hne Hall. rewrite insert_run.
  rewrite (insert_body_accepted _ _ _ _ _ F P D C).
  unfold insert_many. destruct records as [|d ds]; [congruence|].
  unfold all_accepted in Hall. unfold pinged. cbn [add_event next_oid mongo].
  generalize (assign_ids_length (d :: ds) (next_oid w)).
  destruct (assign_ids (next_oid w) (d :: ds)) as [[docs ids] oid].
  cbn [fst snd] in *. intros [Hids _].
  cbn [set_next_oid add_event mongo]. rewrite Wf.
  destruct (bulk_execute _ _ _ _ _) as [[coll errs] n].
  cbn [fst snd] in Hall. subst errs. cbn [fst inserted_ids]. now rewrite Hids.
Qed.

(** C6: a count returned by [insert_data_mongodb] is a natural number at
    most the number of submitted records; it is that number when the store
    accepts every submitted document, and a reachable store that accepts
    every document of a non-empty submission, under a database and a
    collection name the driver accepts, does make the call return. *)
Theorem insert_count_bounded (self : t) records database collection (w : world) :
  let run := insert_data_mongodb self records database collection w in
  (forall n, fst run = Return n -> n <= length records)
  /\ (forall n, fst run = Return n ->
      all_accepted w database collection records -> n = length records)
  /\ (connect_fault (mongo w) = None -> ping_fault (mongo w) = None ->
      database_name_check database = None ->
      collection_name_check collection = None ->
      write_fault (mongo w) = None -> records <> [] ->
      all_accepted w database collection records ->
      fst run = Return (length records)).
Proof.
  intros run. subst run.
  assert (H : forall n,
             fst (insert_data_mongodb self records database collection w) = Return n ->
             n = length records).
  { intros n Hn.
    destruct (insert_data_mongodb self records database collection w)
      as [o w'] eqn:E.
    simpl in Hn. subst o. eapply insert_returns_length; eassumption. }
  split; [|split].
  - intros n Hn. apply H in Hn. lia.
  - intros n Hn _. now apply H.
  - apply insert_all_accepted.
Qed.

Lemma insert_count_bounded_witness :
  fst (insert_data_mongodb sample_self
         (df_to_dict_records (df_replace_nan_none sample_frame))
         DATABASE COLLECTION (sample_world open_store)) = Return 3
  /\ 3 <= length (df_to_dict_records (df_replace_nan_none sample_frame)).
Proof.
  pose proof (insert_count_bounded sample_self
                (df_to_dict_records (df_replace_nan_none sample_frame))
                DATABASE COLLECTION (sample_world open_store)) as (Hle & _ & Hret).
  assert (E : fst (insert_data_mongodb sample_self
                     (df_to_dict_records (df_replace_nan_none sample_frame))
                     DATABASE COLLECTION (sample_world open_store)) = Return 3).
  { apply Hret; try reflexivity. discriminate. }
  split; [exact E | exact (Hle 3 E)].
Defined.

(** C10: with an empty list of records [insert_data_mongodb] never returns
    a count, 0 included, sends no bulk write and leaves the store as it was;
    when the store is reachable, what it raises comes from the catch-all
    clause, and under a database and a collection name the driver accepts
    it is the driver's refusal of the empty list (a [TypeError]) that the
    clause wraps. *)
Theorem insert_empty_raises (self : t) database collection (w : world) :
  let run := insert_data_mongodb self [] database collection w in
  (forall n, fst run <> Return n)
  /\ (exists new, events (snd run) = events w ++ new
                  /\ write_attempted new = false)
  /\ mongo (snd run) = mongo w
  /\ (connect_fault (mongo w) = None -> ping_fault (mongo w) = None ->
      exists e, fst run = Raise (NetworkSecurityException (Exc e) NoCause))
  /\ (connect_fault (mongo w) = None -> ping_fault (mongo w) = None ->
      database_name_check database = None ->
      collection_name_check collection = None ->
      fst run =
        Raise (NetworkSecurityException
                 (Exc (OtherError (lit "TypeError")
                         (lit "documents must be a non-empty list")))
                 NoCause)).
Proof.
  intros run. subst run. rewrite insert_run.
  destruct (connect_fault (mongo w)) as [e|] eqn:F.
  - rewrite (insert_body_connect_fault _ _ _ _ _ _ F). cbn [fst snd].
    split; [discriminate|].
    split; [|split; [|split; [discriminate|discriminate]]].
    + destruct e; simpl; rewrite <- ?app_assoc; eexists;
        (split; [reflexivity|]); reflexivity.
    + destruct e; reflexivity.
  - destruct (ping_fault (mongo w)) as [e|] eqn:P.
    + rewrite (insert_body_ping_fault _ _ _ _ _ _ F P). cbn [fst snd].
      split; [discriminate|].
      split; [|split; [|split; [discriminate|discriminate]]].
      * destruct e; simpl; rewrite <- ?app_assoc; eexists;
          (split; [reflexivity|]); reflexivity.
      * destruct e; reflexivity.
    + rewrite (insert_body_reachable _ _ _ _ _ F P).
      destruct (database_name_check database) as [e|] eqn:D.
      { unfold database_name_check in D.
        assert (He : exists c n, e = InvalidName c n).
        { repeat match type of D with
                 | context [if ?b then _ else _] => destruct b
                 end; inversion D; eauto. }
        destruct He as (c & n & ->). simpl.
        split; [discriminate|]. rewrite <- app_assoc.
        split; [eexists; split; reflexivity|].
        split; [reflexivity|]. split; [eauto | discriminate]. }
      destruct (collection_name_check collection) as [e|] eqn:C.
      { unfold collection_name_check in C.
        assert (He : exists c n, e = InvalidName c n).
        { repeat match type of C with
                 | context [if ?b then _ else _] => destruct b
                 end; inversion C; eauto. }
        destruct He as (c & n & ->). simpl.
        split; [discriminate|]. rewrite <- app_assoc.
        split; [eexists; split; reflexivity|].
        split; [reflexivity|]. split; [eauto | discriminate]. }
      simpl. split; [discriminate|]. rewrite <- app_assoc.
      split; [eexists; split; reflexivity|].
      split; [reflexivity|]. split; [eauto | reflexivity].
Qed.

Lemma insert_empty_raises_witness :
  fst (insert_data_mongodb sample_self [] DATABASE COLLECTION
         (sample_world open_store)) =
    Raise (NetworkSecurityException
             (Exc (OtherError (lit "TypeError")
                     (lit "documents must be a non-empty list")))
             NoCause)
  /\ fst (insert_data_mongodb sample_self [] DATABASE COLLECTION
            (sample_world open_store)) <> Return 0.
Proof.
  pose proof (insert_empty_raises sample_self DATABASE COLLECTION
                (sample_world open_store)) as (Hn & _ & _ & _ & Hr).
  split; [exact (Hr eq_refl eq_refl eq_refl eq_refl) | exact (Hn 0)].
Defined.

(** ** Dictionaries *)

Lemma dict_set_In (k : str) (v : value) (d : dict) (k' : str) (v' : value) :
  In (k', v') (dict_set k v d) -> In (k', v') d \/ v' = v.
Proof.
  induction d as [|[k0 v0] d IH]; simpl.
  - intros [H|[]]. inversion H. now right.
  - destruct (str_eqb k k0); simpl.
    + intros [H|H]; [inversion H; now right | left; now right].
    + intros [H|H]; [left; now left|].
      destruct (IH H); [left; now right | now right].
Qed.

Lemma dict_set_keys (k : str) (v : value) (d : dict) (k' : str) :
  In k' (keys (dict_set k v d)) <-> k' = k \/ In k' (keys d).
Proof.
  unfold keys. induction d as [|[k0 v0] d IH]; simpl.
  - intuition congruence.
  - destruct (str_eqb k k0) eqn:E; simpl.
    + apply str_eqb_eq in E. subst k0. intuition congruence.
    + rewrite IH. intuition congruence.
Qed.

Lemma dict_set_fresh (k : str) (v : value) (d : dict) :
  ~ In k (keys d) -> dict_set k v d = d ++ [(k, v)].
Proof.
  unfold keys. induction d as [|[k0 v0] d IH]; simpl; [reflexivity|].
  intros H. destruct (str_eqb k k0) eqn:E.
  - apply str_eqb_eq in E. subst k0. tauto.
  - rewrite IH; [reflexivity|tauto].
Qed.

Lemma dict_set_NoDup (k : str) (v : value) (d : dict) :
  NoDup (keys d) -> NoDup (keys (dict_set k v d)).
Proof.
  unfold keys. induction d as [|[k0 v0] d IH]; simpl; intros H.
  - constructor; [intros []|constructor].
  - inversion H as [|? ? Hn Hd]; subst.
    destruct (str_eqb k k0) eqn:E; simpl.
    + constructor; assumption.
    + constructor; [|now apply IH].
      intros Hin. apply (dict_set_keys k v d k0) in Hin.
      destruct Hin as [->|Hin]; [|tauto].
      rewrite str_eqb_refl in E. discriminate.
Qed.

Lemma dict_fold_In (pairs : list (str * value)) (acc : dict) k v :
  In (k, v) (fold_left dict_step pairs acc) ->
  In (k, v) acc \/ In v (map snd pairs).
Proof.
  revert acc. induction pairs as [|[k0 v0] pairs IH]; simpl; intros acc H;
    [now left|].
  apply IH in H as [H|H]; [|right; now right].
  apply dict_set_In in H as [H|H]; [now left | right; left; now symmetry].
Qed.

Lemma dict_fold_keys (pairs : list (str * value)) (acc : dict) k :
  In k (keys (fold_left dict_step pairs acc)) <->
  In k (keys acc) \/ In k (map fst pairs).
Proof.
  revert acc. induction pairs as [|[k0 v0] pairs IH]; simpl; intros acc;
    [tauto|].
  rewrite IH. unfold dict_step. simpl. rewrite dict_set_keys.
  intuition congruence.
Qed.

Lemma dict_fold_NoDup (pairs : list (str * value)) (acc : dict) :
  NoDup (keys acc) -> NoDup (keys (fold_left dict_step pairs acc)).
Proof.
  revert acc. induction pairs as [|kv pairs IH]; simpl; intros acc H;
    [assumption|].
  apply IH, dict_set_NoDup, H.
Qed.

Lemma dict_fold_fresh (pairs : list (str * value)) (acc : dict) :
  NoDup (keys acc ++ map fst pairs) ->
  fold_left dict_step pairs acc = acc ++ pairs.
Proof.
  revert acc. induction pairs as [|[k v] pairs IH]; simpl; intros acc H.
  - now rewrite app_nil_r.
  - unfold dict_step at 2. simpl.
    rewrite dict_set_fresh.
    + rewrite IH; [now rewrite <- app_assoc|].
      unfold keys. rewrite map_app, <- app_assoc. exact H.
    + apply NoDup_remove_2 in H. intros Hin. apply H.
      apply in_or_app. now left.
Qed.

(** With distinct keys, [dict(pairs)] is the list of pairs itself. *)
Lemma dict_of_NoDup (pairs : list (str * value)) :
  NoDup (map fst pairs) -> dict_of pairs = pairs.
Proof.
  intros H. unfold dict_of.
  change (fold_left dict_step pairs [] = pairs).
  now rewrite dict_fold_fresh.
Qed.

Lemma combine_fst_incl {A B} (l : list A) (l' : list B) x :
  In x (map fst (combine l l')) -> In x l.
Proof.
  revert l'. induction l as [|a l IH]; intros [|b l']; simpl; try tauto.
  intros [H|H]; [now left | right; eauto].
Qed.

Lemma combine_fst_NoDup {A B} (l : list A) (l' : list B) :
  NoDup l -> NoDup (map fst (combine l l')).
Proof.
  revert l'. induction l as [|a l IH]; intros [|b l'] H; simpl;
    try constructor.
  - inversion H; subst. intros Hin. apply combine_fst_incl in Hin. tauto.
  - inversion H; subst. now apply IH.
Qed.

Lemma combine_fst_full {A B} (l : list A) (l' : list B) :
  length l' = length l -> map fst (combine l l') = l.
Proof.
  revert l'. induction l as [|a l IH]; intros [|b l'] H; simpl in *;
    try congruence.
  f_equal. apply IH. congruence.
Qed.

Lemma combine_snd_incl {A B} (l : list A) (l' : list B) y :
  In y (map snd (combine l l')) -> In y l'.
Proof.
  revert l'. induction l as [|a l IH]; intros [|b l']; simpl; try tauto.
  intros [H|H]; [now left | right; eauto].
Qed.

(** The value under the [j]-th of distinct keys is the [j]-th value. *)
Lemma dict_get_combine (cols : list str) (vals : list value) j c v :
  NoDup cols ->
  nth_error cols j = Some c ->
  nth_error vals j = Some v ->
  dict_get c (combine cols vals) = Some v.
Proof.
  revert vals j. induction cols as [|c0 cols IH]; intros vals j Hnd Hc Hv.
  - destruct j; discriminate.
  - destruct vals as [|v0 vals]; [destruct j; discriminate|].
    inversion Hnd as [|? ? Hn Hd]; subst. destruct j as [|j]; simpl in *.
    + inversion Hc; inversion Hv; subst. now rewrite str_eqb_refl.
    + destruct (str_eqb c c0) eqn:E.
      * apply str_eqb_eq in E. subst c0. apply nth_error_In in Hc. tauto.
      * eapply IH; eassumption.
Qed.

(** ** The loader *)

Lemma csv_run (self : t) (file_path : str) (w : world) :
  csv_to_json_convertor self file_path w =
    match read_csv_result w file_path with
    | Return df => (Return (records_of df), add_event (Ev_read_csv file_path) w)
    | Raise e => (Raise (NetworkSecurityException (Exc e) NoCause),
                  add_event (Ev_read_csv file_path) w)
    end.
Proof.
  unfold csv_to_json_convertor, try_except, bind, pd_read_csv, emit. simpl.
  destruct (read_csv_result w file_path); reflexivity.
Qed.

Lemma nan_to_none_not_nan (v : value) : is_nan (nan_to_none v) = false.
Proof.
  unfold nan_to_none. destruct (is_nan v) eqn:E; [reflexivity | exact E].
Qed.

Lemma records_of_nth (df : DataFrame) (i : nat) :
  nth_error (records_of df) i =
    option_map (fun row => dict_of (combine (columns df) (map nan_to_none row)))
      (nth_error (rows df) i).
Proof.
  unfold records_of, df_to_dict_records, df_replace_nan_none. simpl.
  rewrite nth_error_map, nth_error_map.
  now destruct (nth_error (rows df) i).
Qed.

Lemma record_get (cols : list str) (row : list value) j c v :
  NoDup cols ->
  nth_error cols j = Some c ->
  nth_error row j = Some v ->
  dict_get c (dict_of (combine cols (map nan_to_none row))) = Some (nan_to_none v).
Proof.
  intros Hnd Hc Hv. rewrite dict_of_NoDup by now apply combine_fst_NoDup.
  eapply dict_get_combine; try eassumption.
  rewrite nth_error_map, Hv. reflexivity.
Qed.

(** C4: for every file that parses, no value of any returned record is a
    floating-point NaN; and the cell of row [i] and column [c] that is NaN
    (missing) in the parsed frame is [None] in the [i]-th record, not the
    string ["NaN"]. *)
Theorem loader_nulls_missing_cells (self : t) (file_path : str) (w : world)
    (df : DataFrame) :
  read_csv_result w file_path = Return df ->
  exists records,
    fst (csv_to_json_convertor self file_path w) = Return records
    /\ (forall r k v, In r records -> In (k, v) r -> is_nan v = false)
    /\ (NoDup (columns df) ->
        forall i row j c v,
          nth_error (rows df) i = Some row ->
          nth_error (columns df) j = Some c ->
          nth_error row j = Some v ->
          is_nan v = true ->
          exists r, nth_error records i = Some r
                    /\ dict_get c r = Some VNone
                    /\ dict_get c r <> Some (VStr (lit "NaN"))).
Proof.
  intros Hread. exists (records_of df). rewrite csv_run, Hread.
  split; [reflexivity|]. split.
  - intros r k v Hr Hkv.
    unfold records_of, df_to_dict_records, df_replace_nan_none in Hr.
    simpl in Hr. rewrite map_map in Hr. apply in_map_iff in Hr as (row & <- & _).
    apply dict_fold_In in Hkv as [[]|Hv].
    apply combine_snd_incl in Hv. apply in_map_iff in Hv as (v0 & <- & _).
    apply nan_to_none_not_nan.
  - intros Hnd i row j c v Hrow Hc Hv Hnan.
    exists (dict_of (combine (columns df) (map nan_to_none row))).
    rewrite records_of_nth, Hrow. split; [reflexivity|].
    rewrite (record_get _ _ _ _ _ Hnd Hc Hv). unfold nan_to_none.
    rewrite Hnan. split; [reflexivity | discriminate].
Qed.

Lemma loader_nulls_missing_cells_witness :
  exists records,
    fst (csv_to_json_convertor sample_self FILE_PATH (sample_world open_store)) =
      Return records
    /\ option_map (dict_get (lit "url")) (nth_error records 1) = Some (Some VNone).
Proof.
  destruct (loader_nulls_missing_cells sample_self FILE_PATH
              (sample_world open_store) sample_frame eq_refl)
    as (records & Hret & _ & Hcell).
  exists records. split; [exact Hret|].
  assert (Hnd : NoDup (columns sample_frame)).
  { repeat constructor; simpl; intuition discriminate. }
  destruct (Hcell Hnd 1 [VInt 2; VFloat S754_nan] 1 (lit "url") (VFloat S754_nan)
              eq_refl eq_refl eq_refl eq_refl) as (r & Hr & Hget & _).
  rewrite Hr. simpl. now rewrite Hget.
Defined.

(** C5: for every file that parses into a frame of [N] rows, the loader
    returns exactly [N] records, the [i]-th record being built from the
    [i]-th row: its keys are the column names of the header, each once, in
    header order when the names are distinct, and the value under a column
    is the (normalised) cell of that row and column. *)
Theorem loader_preserves_rows (self : t) (file_path : str) (w : world)
    (df : DataFrame) :
  read_csv_result w file_path = Return df ->
  frame_wf df ->
  exists records,
    fst (csv_to_json_convertor self file_path w) = Return records
    /\ length records = length (rows df)
    /\ (forall i row,
          nth_error (rows df) i = Some row ->
          exists r, nth_error records i = Some r
            /\ NoDup (keys r)
            /\ (forall k, In k (keys r) <-> In k (columns df))
            /\ (NoDup (columns df) ->
                keys r = columns df
                /\ forall j c v,
                     nth_error (columns df) j = Some c ->
                     nth_error row j = Some v ->
                     dict_get c r = Some (nan_to_none v))).
Proof.
  intros Hread Hwf. exists (records_of df). rewrite csv_run, Hread.
  split; [reflexivity|]. split.
  - unfold records_of, df_to_dict_records, df_replace_nan_none. simpl.
    now rewrite !length_map.
  - intros i row Hrow.
    exists (dict_of (combine (columns df) (map nan_to_none row))).
    rewrite records_of_nth, Hrow. split; [reflexivity|].
    assert (Hlen : length (map nan_to_none row) = length (columns df)).
    { rewrite length_map. unfold frame_wf in Hwf.
      rewrite Forall_forall in Hwf. apply Hwf.
      eapply nth_error_In; eassumption. }
    split; [|split].
    + apply (dict_fold_NoDup _ []). constructor.
    + intros k. unfold dict_of.
      change (In k (keys (fold_left dict_step
                            (combine (columns df) (map nan_to_none row)) []))
              <-> In k (columns df)).
      rewrite dict_fold_keys, (combine_fst_full _ _ Hlen). simpl. tauto.
    + intros Hnd. split.
      * rewrite dict_of_NoDup by now apply combine_fst_NoDup.
        unfold keys. now apply combine_fst_full.
      * intros j c v Hc Hv. now apply record_get with (j := j).
Qed.

Lemma loader_preserves_rows_witness :
  fst (csv_to_json_convertor sample_self FILE_PATH (sample_world open_store)) =
    Return [ [(lit "id", VInt 1); (lit "url", VStr (lit "a.example"))];
             [(lit "id", VInt 2); (lit "url", VNone)];
             [(lit "id", VInt 3); (lit "url", VStr (lit "c.example"))] ].
Proof.
  assert (Hwf : frame_wf sample_frame) by (repeat constructor).
  destruct (loader_preserves_rows sample_self FILE_PATH (sample_world open_store)
              sample_frame eq_refl Hwf) as (records & Hret & _).
  rewrite Hret. f_equal.
  rewrite csv_run in Hret. simpl in Hret. inversion Hret. reflexivity.
Defined.

(** ** The entry point *)

(** The run on the three-row file against a store that accepts everything. *)
Example main_sample_run :
  fst (main (sample_world open_store)) = Return tt
  /\ filter (fun ev => match ev with Ev_print _ => true | _ => false end)
       (events (snd (main (sample_world open_store)))) =
     [Ev_print (lit "Loaded 3 records from CSV");
      Ev_print (lit "Inserted 3 records")].
Proof. split; reflexivity. Qed.

(** The run without a connection string prints the error and raises it. *)
Example main_unconfigured_run :
  let w := {| environ := []; read_csv_result := fun _ => Return sample_frame;
              certifi_where := []; mongo := open_store; next_oid := 0;
              events := [] |} in
  main w = (Raise (config_error (lit "MONGO_DB_URL")),
            add_event (Ev_print_exception (config_error (lit "MONGO_DB_URL"))) w).
Proof. reflexivity. Qed.

(** * Further properties *)

(** ** Reading the environment *)

Lemma forallb_false_existsb {A} (f : A -> bool) (l : list A) :
  forallb f l = false -> existsb (fun x => negb (f x)) l = true.
Proof.
  induction l as [|x l IH]; simpl; [discriminate|].
  destruct (f x); simpl; [exact IH | reflexivity].
Qed.

(** X1: a value returned by [_require_env] is the value of the variable as
    the environment holds it, with any surrounding whitespace kept (the
    stripped string is only tested, not returned); it has a character that
    is not whitespace, and the call changed nothing. *)
Theorem require_env_returns_verbatim (name : str) (w w' : world) (v : str) :
  _require_env name w = (Return v, w') ->
  env_lookup (environ w) name = Some v
  /\ w' = w
  /\ strip v <> []
  /\ existsb (fun c => negb (isspace c)) v = true.
Proof.
  rewrite require_env_run.
  destruct (env_lookup (environ w) name) as [v0|] eqn:E; simpl;
    [|discriminate].
  destruct (forallb isspace v0) eqn:B; [discriminate|].
  intros H. inversion H. subst. repeat split.
  - intros Hs. apply strip_nil_iff in Hs. congruence.
  - now apply forallb_false_existsb.
Qed.

Lemma require_env_returns_verbatim_witness :
  env_lookup [(lit "DB", lit "  mongodb://h  ")] (lit "DB") =
    Some (lit "  mongodb://h  ")
  /\ strip (lit "  mongodb://h  ") <> [].
Proof.
  destruct (require_env_returns_verbatim (lit "DB")
              {| environ := [(lit "DB", lit "  mongodb://h  ")];
                 read_csv_result := fun _ => Raise auth_failure;
                 certifi_where := []; mongo := open_store; next_oid := 0;
                 events := [] |}
              _ (lit "  mongodb://h  ") eq_refl) as (H1 & _ & H3 & _).
  split; [exact H1 | exact H3].
Defined.

(** ** More on the loader *)

(** X2: whatever the file, the only effect of the loader is one read of
    that file: the environment, the store and the id counter are as before.
    It returns records exactly when the file parsed, then the records of
    the parsed frame, one per row; an exception [e] of the parser leaves as
    the wrapped exception around [e], not chained. *)
Theorem loader_only_reads (self : t) (file_path : str) (w : world) :
  let run := csv_to_json_convertor self file_path w in
  events (snd run) = events w ++ [Ev_read_csv file_path]
  /\ environ (snd run) = environ w
  /\ mongo (snd run) = mongo w
  /\ next_oid (snd run) = next_oid w
  /\ (forall e, read_csv_result w file_path = Raise e ->
      fst run = Raise (NetworkSecurityException (Exc e) NoCause))
  /\ (forall df, read_csv_result w file_path = Return df ->
      fst run = Return (records_of df)
      /\ length (records_of df) = length (rows df))
  /\ (forall records, fst run = Return records ->
      exists df, read_csv_result w file_path = Return df
                 /\ records = records_of df).
Proof.
  intros run. subst run. rewrite csv_run.
  assert (Hlen : forall df, length (records_of df) = length (rows df)).
  { intros df. unfold records_of, df_to_dict_records, df_replace_nan_none.
    simpl. now rewrite !length_map. }
  destruct (read_csv_result w file_path) as [df|e]; simpl.
  - do 4 (split; [reflexivity|]). split; [discriminate|]. split.
    + intros df0 H. inversion H; subst df0. split; [reflexivity | apply Hlen].
    + intros records H. inversion H. now exists df.
  - do 4 (split; [reflexivity|]). split; [|split; discriminate].
    intros e0 H. now inversion H.
Qed.

Lemma loader_only_reads_witness :
  fst (csv_to_json_convertor sample_self FILE_PATH (sample_world open_store)) =
    Return [ [(lit "id", VInt 1); (lit "url", VStr (lit "a.example"))];
             [(lit "id", VInt 2); (lit "url", VNone)];
             [(lit "id", VInt 3); (lit "url", VStr (lit "c.example"))] ]
  /\ fst (csv_to_json_convertor sample_self (lit "missing.csv")
            (sample_world open_store)) =
     Raise (NetworkSecurityException
              (Exc (OtherError (lit "FileNotFoundError") (lit "missing.csv")))
              NoCause)
  /\ events (snd (csv_to_json_convertor sample_self (lit "missing.csv")
                    (sample_world open_store))) = [Ev_read_csv (lit "missing.csv")].
Proof.
  split; [|split].
  - exact (proj1 (proj1 (proj2 (proj2 (proj2 (proj2 (proj2
             (loader_only_reads sample_self FILE_PATH
                (sample_world open_store)))))))
             sample_frame eq_refl)).
  - exact (proj1 (proj2 (proj2 (proj2 (proj2
             (loader_only_reads sample_self (lit "missing.csv")
                (sample_world open_store))))))
             _ eq_refl).
  - exact (proj1 (loader_only_reads sample_self (lit "missing.csv")
                    (sample_world open_store))).
Defined.

(** X3: the loader invents no value.  Every value of the [i]-th record is a
    cell of the [i]-th row that is not NaN, taken as it is, or it is [None]
    and the row has a NaN cell. *)
Theorem loader_values_from_row (self : t) (file_path : str) (w : world)
    (df : DataFrame) (i : nat) (row : list value) :
  read_csv_result w file_path = Return df ->
  nth_error (rows df) i = Some row ->
  exists records r,
    fst (csv_to_json_convertor self file_path w) = Return records
    /\ nth_error records i = Some r
    /\ forall k v, In (k, v) r ->
         (In v row /\ is_nan v = false)
         \/ (v = VNone /\ exists cell, In cell row /\ is_nan cell = true).
Proof.
  intros Hread Hrow. exists (records_of df).
  exists (dict_of (combine (columns df) (map nan_to_none row))).
  rewrite csv_run, Hread, records_of_nth, Hrow. repeat split.
  intros k v Hkv. apply dict_fold_In in Hkv as [[]|Hv].
  apply combine_snd_incl in Hv. apply in_map_iff in Hv as (cell & <- & Hcell).
  unfold nan_to_none. destruct (is_nan cell) eqn:E.
  - right. split; [reflexivity|]. now exists cell.
  - left. now split.
Qed.

Lemma loader_values_from_row_witness :
  exists records r,
    fst (csv_to_json_convertor sample_self FILE_PATH (sample_world open_store)) =
      Return records
    /\ nth_error records 1 = Some r
    /\ forall k v, In (k, v) r ->
         (In v [VInt 2; VFloat S754_nan] /\ is_nan v = false)
         \/ (v = VNone
             /\ exists cell, In cell [VInt 2; VFloat S754_nan] /\ is_nan cell = true).
Proof.
  exact (loader_values_from_row sample_self FILE_PATH (sample_world open_store)
           sample_frame 1 [VInt 2; VFloat S754_nan] eq_refl eq_refl).
Defined.

(** ** Failures *)

Lemma init_run (w : world) :
  __init__ w =
    if blank (env_lookup (environ w) (lit "MONGO_DB_URL"))
    then (Raise (config_error (lit "MONGO_DB_URL")), w)
    else match env_lookup (environ w) (lit "MONGO_DB_URL") with
         | Some v => (Return {| mongo_uri := v |}, w)
         | None => (Return {| mongo_uri := [] |}, w)
         end.
Proof.
  unfold __init__, try_except, bind. rewrite require_env_run.
  destruct (blank _); [reflexivity|].
  now destruct (env_lookup (environ w) (lit "MONGO_DB_URL")).
Qed.

(** The four ways a run of the entry point can go. *)
Lemma main_cases (w : world) :
  match __init__ w with
  | (Raise e, w1) => main w = (Raise e, add_event (Ev_print_exception e) w1)
  | (Return extractor, w1) =>
      match csv_to_json_convertor extractor FILE_PATH w1 with
      | (Raise e, w2) => main w = (Raise e, add_event (Ev_print_exception e) w2)
      | (Return records, w2) =>
          match insert_data_mongodb extractor records DATABASE COLLECTION
                  (add_event (Ev_print (loaded_line (length records))) w2) with
          | (Raise e, w3) =>
              main w = (Raise e, add_event (Ev_print_exception e) w3)
          | (Return n, w3) =>
              main w = (Return tt, add_event (Ev_print (inserted_line n)) w3)
          end
      end
  end.
Proof.
  unfold main, try_except, bind, print, emit, loaded_line, inserted_line.
  destruct (__init__ w) as [[extractor|e] w1]; [|reflexivity].
  destruct (csv_to_json_convertor extractor FILE_PATH w1) as [[records|e] w2];
    [|reflexivity].
  destruct (insert_data_mongodb extractor records DATABASE COLLECTION _)
    as [[n|e] w3]; reflexivity.
Qed.

Lemma init_raises_NSE (w : world) (e : exception) :
  fst (__init__ w) = Raise e -> is_NetworkSecurityException e = true.
Proof.
  rewrite init_run. destruct (blank _); simpl.
  - intros H. now inversion H.
  - destruct (env_lookup _ _); discriminate.
Qed.

Lemma csv_raises_NSE (self : t) (file_path : str) (w : world) (e : exception) :
  fst (csv_to_json_convertor self file_path w) = Raise e ->
  is_NetworkSecurityException e = true.
Proof.
  rewrite csv_run. destruct (read_csv_result w file_path); simpl;
    [discriminate|]. intros H. now inversion H.
Qed.

Lemma insert_raises_NSE (self : t) records database collection (w : world)
    (e : exception) :
  fst (insert_data_mongodb self records database collection w) = Raise e ->
  is_NetworkSecurityException e = true.
Proof.
  rewrite insert_run.
  destruct (insert_body self records database collection w) as [[n|e0] w'];
    simpl; [discriminate|].
  intros H. inversion H. apply wrapped_is_NSE.
Qed.

(** X4: no exception of a library leaves the script unwrapped.  Whatever
    the constructor, the loader, the insertion or the entry point raises is
    a [NetworkSecurityException]. *)
Theorem failures_are_wrapped (w : world) (e : exception) :
  (fst (__init__ w) = Raise e -> is_NetworkSecurityException e = true)
  /\ (forall self file_path,
      fst (csv_to_json_convertor self file_path w) = Raise e ->
      is_NetworkSecurityException e = true)
  /\ (forall self records database collection,
      fst (insert_data_mongodb self records database collection w) = Raise e ->
      is_NetworkSecurityException e = true)
  /\ (fst (main w) = Raise e -> is_NetworkSecurityException e = true).
Proof.
  split; [apply init_raises_NSE|]. split; [intros; eapply csv_raises_NSE; eauto|].
  split; [intros; eapply insert_raises_NSE; eauto|].
  generalize (main_cases w).
  destruct (__init__ w) as [[extractor|e1] w1] eqn:E1.
  - destruct (csv_to_json_convertor extractor FILE_PATH w1)
      as [[records|e2] w2] eqn:E2.
    + destruct (insert_data_mongodb extractor records DATABASE COLLECTION _)
        as [[n|e3] w3] eqn:E3; intros -> H; simpl in H; [discriminate|].
      inversion H; subst. eapply insert_raises_NSE. rewrite E3. reflexivity.
    + intros -> H. simpl in H. inversion H; subst.
      eapply csv_raises_NSE. rewrite E2. reflexivity.
  - intros -> H. simpl in H. inversion H; subst.
    eapply init_raises_NSE. rewrite E1. reflexivity.
Qed.

Lemma failures_are_wrapped_witness :
  is_NetworkSecurityException
    (NetworkSecurityException (Exc auth_failure) NoCause) = true.
Proof.
  apply (proj1 (proj2 (proj2 (failures_are_wrapped
                                (sample_world (no_ping_store auth_failure)) _)))
           sample_self duplicate_records DATABASE COLLECTION).
  reflexivity.
Defined.

(** ** More on the insertion *)

Lemma handled_events (e : exception) (w : world) :
  events (handled e w) = events w ++ log_of e
  /\ mongo (handled e w) = mongo w
  /\ next_oid (handled e w) = next_oid w.
Proof. destruct e; simpl; rewrite ?app_nil_r; auto. Qed.

(** X5: when the client cannot even be created (the driver's constructor
    raises [e], as for a malformed URI), the insertion raises the wrapped
    exception for [e] without having sent a ping or a bulk write, and the
    store and the id counter are as before. *)
Theorem connect_failure_aborts (self : t) records database collection
    (w : world) (e : exception) :
  connect_fault (mongo w) = Some e ->
  let run := insert_data_mongodb self records database collection w in
  fst run = Raise (wrapped e)
  /\ events (snd run) =
     events w ++ Ev_MongoClient (client_of self w) :: log_of e
  /\ existsb is_ping (Ev_MongoClient (client_of self w) :: log_of e) = false
  /\ write_attempted (Ev_MongoClient (client_of self w) :: log_of e) = false
  /\ mongo (snd run) = mongo w
  /\ next_oid (snd run) = next_oid w.
Proof.
  intros F run. subst run. rewrite insert_run.
  rewrite (insert_body_connect_fault _ _ _ _ _ _ F). cbn [fst snd].
  destruct (handled_events e (add_event (Ev_MongoClient (client_of self w)) w))
    as (He & Hm & Ho).
  rewrite He, Hm, Ho. simpl. rewrite <- app_assoc. simpl.
  repeat split; destruct e; reflexivity.
Qed.

Lemma connect_failure_aborts_witness :
  fst (insert_data_mongodb sample_self duplicate_records DATABASE COLLECTION
         (sample_world
            {| connect_fault := Some (OtherError (lit "InvalidURI") (lit "bad scheme"));
               ping_fault := None; write_fault := None;
               rejects := fun _ _ => None; data := fun _ _ => [] |})) =
    Raise (NetworkSecurityException
             (Exc (OtherError (lit "InvalidURI") (lit "bad scheme"))) NoCause).
Proof.
  exact (proj1 (connect_failure_aborts sample_self duplicate_records DATABASE
                  COLLECTION
                  (sample_world
                     {| connect_fault :=
                          Some (OtherError (lit "InvalidURI") (lit "bad scheme"));
                        ping_fault := None; write_fault := None;
                        rejects := fun _ _ => None; data := fun _ _ => [] |})
                  _ eq_refl)).
Defined.

Lemma insert_many_nonempty (client : client_kwargs) database collection
    (documents : list document) (ordered : bool) (w : world) :
  documents <> [] ->
  insert_many client database collection documents ordered w =
    let w1 := add_event
                (Ev_insert_many database collection (submitted w documents) ordered)
                (set_next_oid (snd (assign_ids (next_oid w) documents)) w) in
    match write_fault (mongo w) with
    | Some e => (Raise e, w1)
    | None =>
        let res := bulk_execute (rejects (mongo w)) ordered 0
                     (data (mongo w) database collection)
                     (submitted w documents) in
        let w2 := set_mongo
                    (set_data (mongo w) database collection (fst (fst res))) w1 in
        match snd (fst res) with
        | [] => (Return {| inserted_ids :=
                             snd (fst (assign_ids (next_oid w) documents)) |}, w2)
        | _ :: _ =>
            (Raise (BulkWriteError {| writeErrors := snd (fst res);
                                      nInserted := snd res |}), w2)
        end
    end.
Proof.
  intros Hne. unfold insert_many, submitted.
  destruct documents as [|d ds]; [congruence|].
  destruct (assign_ids (next_oid w) (d :: ds)) as [[docs ids] oid].
  cbn [fst snd]. destruct (write_fault (mongo w)); [reflexivity|].
  destruct (bulk_execute _ _ _ _ _) as [[coll errs] n]. cbn [fst snd].
  destruct errs; reflexivity.
Qed.

(** Whatever the insertion does, it prints nothing: its events are the
    driver's and the log's. *)
Lemma insert_prints_nothing (self : t) records database collection (w : world) :
  exists new,
    events (snd (insert_data_mongodb self records database collection w)) =
      events w ++ new
    /\ existsb is_print new = false.
Proof.
  rewrite insert_run.
  destruct (connect_fault (mongo w)) as [e|] eqn:F.
  { rewrite (insert_body_connect_fault _ _ _ _ _ _ F). cbn [fst snd].
    destruct (handled_events e
                (add_event (Ev_MongoClient (client_of self w)) w)) as (-> & _).
    simpl. rewrite <- app_assoc. eexists. split; [reflexivity|].
    destruct e; reflexivity. }
  destruct (ping_fault (mongo w)) as [e|] eqn:P.
  { rewrite (insert_body_ping_fault _ _ _ _ _ _ F P). cbn [fst snd].
    destruct (handled_events e (pinged self w)) as (-> & _).
    simpl. rewrite <- !app_assoc. eexists. split; [reflexivity|].
    destruct e; reflexivity. }
  destruct (names_accepted database collection) eqn:N.
  - unfold names_accepted in N.
    destruct (database_name_check database) eqn:D; [discriminate|].
    destruct (collection_name_check collection) eqn:C; [discriminate|].
    rewrite (insert_body_accepted _ _ _ _ _ F P D C).
    destruct records as [|d ds].
    + simpl. rewrite <- app_assoc. eexists. split; reflexivity.
    + rewrite insert_many_nonempty by discriminate. cbv zeta.
      change (mongo (pinged self w)) with (mongo w).
      destruct (write_fault (mongo w)) as [e|].
      * cbn [fst snd].
        match goal with
        | |- context [handled e ?w0] =>
            destruct (handled_events e w0) as (-> & _)
        end.
        simpl. rewrite <- !app_assoc. eexists. split; [reflexivity|].
        destruct e; reflexivity.
      * destruct (snd (fst (bulk_execute _ _ _ _ _))) as [|err errs];
          cbn [fst snd handled]; simpl; rewrite <- !app_assoc;
          eexists; (split; [reflexivity|]); reflexivity.
  - destruct (insert_body_refused self records database collection w F P N) as (c & n & ->).
    simpl. rewrite <- app_assoc. eexists. split; reflexivity.
Qed.



Lemma set_data_same (s : server) database collection coll :
  data (set_data s database collection coll) database collection = coll.
Proof. simpl. now rewrite !str_eqb_refl. Qed.

Lemma bulk_execute_all_accepted rej (ordered : bool) (idx : nat)
    (coll docs : list document) :
  snd (fst (bulk_execute rej ordered idx coll docs)) = [] ->
  fst (fst (bulk_execute rej ordered idx coll docs)) = coll ++ docs.
Proof.
  revert idx coll. induction docs as [|d ds IH]; intros idx coll; simpl.
  - intros _. now rewrite app_nil_r.
  - destruct (rej coll d) as [[c m]|].
    + destruct ordered; [discriminate|].
      destruct (bulk_execute rej false (S idx) coll ds) as [[coll' errs] n].
      discriminate.
    + specialize (IH (S idx) (coll ++ [d])).
      destruct (bulk_execute rej ordered (S idx) (coll ++ [d]) ds)
        as [[coll' errs] n].
      simpl in *. intros H. rewrite (IH H), <- app_assoc. reflexivity.
Qed.

(** The whole run of an insertion that goes through. *)
Lemma insert_success_run (self : t) records database collection (w : world) :
  connect_fault (mongo w) = None ->
  ping_fault (mongo w) = None ->
  database_name_check database = None ->
  collection_name_check collection = None ->
  write_fault (mongo w) = None ->
  records <> [] ->
  all_accepted w database collection records ->
  insert_data_mongodb self records database collection w =
    (Return (length records),
     set_mongo
       (set_data (mongo w) database collection
          (data (mongo w) database collection ++ submitted w records))
       (add_event
          (Ev_insert_many database collection (submitted w records) false)
          (set_next_oid (snd (assign_ids (next_oid w) records)) (pinged self w)))).
Proof.
  intros F P D C Wf Hne Hacc. rewrite insert_run.
  rewrite (insert_body_accepted _ _ _ _ _ F P D C).
  rewrite insert_many_nonempty by assumption.
  change (submitted (pinged self w) records) with (submitted w records).
  change (mongo (pinged self w)) with (mongo w).
  change (next_oid (pinged self w)) with (next_oid w).
  cbv zeta. rewrite Wf. unfold all_accepted in Hacc.
  fold (submitted w records) in Hacc.
  rewrite (bulk_execute_all_accepted _ _ _ _ _ Hacc), Hacc.
  cbn [inserted_ids]. f_equal. f_equal. apply assign_ids_length.
Qed.


Lemma records_of_length (df : DataFrame) :
  length (records_of df) = length (rows df).
Proof.
  unfold records_of, df_to_dict_records, df_replace_nan_none. simpl.
  now rewrite !length_map.
Qed.

Lemma records_of_nil (df : DataFrame) : records_of df = [] <-> rows df = [].
Proof.
  split; intros H.
  - apply length_zero_iff_nil. rewrite <- records_of_length, H. reflexivity.
  - apply length_zero_iff_nil. rewrite records_of_length, H. reflexivity.
Qed.

(** ** More on the entry point *)



(** X9: a run that goes through reports equal counts.  Under the conditions
    above the entry point reads the file once, prints the number of rows as
    the number loaded, creates the client with the configured URI, pings,
    sends one unordered bulk write with one document per row to
    [CHARUKAGUN.NetworkData], and prints that same number as the number
    inserted; afterwards the collection holds its former documents followed
    by the submitted ones. *)
Theorem main_success_trace (w : world) (uri : str) (df : DataFrame) :
  run_conditions w uri df ->
  let docs := submitted w (records_of df) in
  fst (main w) = Return tt
  /\ events (snd (main w)) =
     events w ++
     [Ev_read_csv FILE_PATH;
      Ev_print (loaded_line (length (rows df)));
      Ev_MongoClient {| host := uri; tls := true;
                        tlsCAFile := certifi_where w;
                        serverSelectionTimeoutMS := 15000 |};
      Ev_ping;
      Ev_insert_many DATABASE COLLECTION docs false;
      Ev_print (inserted_line (length (rows df)))]
  /\ length docs = length (rows df)
  /\ data (mongo (snd (main w))) DATABASE COLLECTION =
     data (mongo w) DATABASE COLLECTION ++ docs.
Proof.
  intros (E & B & R & Hne & F & P & Wf & Hacc) docs. subst docs.
  generalize (main_cases w). rewrite init_run, E. simpl. rewrite B, csv_run, R.
  rewrite insert_success_run; try assumption; try reflexivity.
  2:{ intros Hr. apply Hne. now apply records_of_nil. }
  intros ->. cbn [fst snd].
  split; [reflexivity|]. split; [|split].
  - simpl. rewrite <- !app_assoc, !records_of_length. reflexivity.
  - unfold submitted.
    rewrite (proj2 (assign_ids_length (records_of df) (next_oid w))).
    apply records_of_length.
  - cbn [add_event set_mongo mongo]. apply set_data_same.
Qed.

Lemma main_success_trace_witness :
  events (snd (main (sample_world open_store))) =
    [Ev_read_csv FILE_PATH;
     Ev_print (lit "Loaded 3 records from CSV");
     Ev_MongoClient {| host := lit "mongodb+srv://u:p@cluster0.example.net";
                       tls := true;
                       tlsCAFile := lit "/opt/certifi/cacert.pem";
                       serverSelectionTimeoutMS := 15000 |};
     Ev_ping;
     Ev_insert_many DATABASE COLLECTION
       (submitted (sample_world open_store) (records_of sample_frame)) false;
     Ev_print (lit "Inserted 3 records")].
Proof.
  assert (C : run_conditions (sample_world open_store)
                (lit "mongodb+srv://u:p@cluster0.example.net") sample_frame)
    by (repeat split; discriminate).
  exact (proj1 (proj2 (main_success_trace _ _ _ C))).
Defined.

(** X10: a file that parses into a header without rows makes the run fail
    after the connection was checked.  With the connection string set and
    the store reachable, the entry point prints that 0 records were loaded,
    creates the client, pings, and then raises the wrapped [TypeError] of
    the driver, printed last; no bulk write is sent and the store is as
    before. *)
Theorem main_empty_file (w : world) (uri : str) (df : DataFrame) :
  env_lookup (environ w) (lit "MONGO_DB_URL") = Some uri ->
  forallb isspace uri = false ->
  read_csv_result w FILE_PATH = Return df ->
  rows df = [] ->
  connect_fault (mongo w) = None ->
  ping_fault (mongo w) = None ->
  let err := NetworkSecurityException
               (Exc (OtherError (lit "TypeError")
                       (lit "documents must be a non-empty list"))) NoCause in
  fst (main w) = Raise err
  /\ events (snd (main w)) =
     events w ++
     [Ev_read_csv FILE_PATH;
      Ev_print (lit "Loaded 0 records from CSV");
      Ev_MongoClient {| host := uri; tls := true;
                        tlsCAFile := certifi_where w;
                        serverSelectionTimeoutMS := 15000 |};
      Ev_ping;
      Ev_print_exception err]
  /\ mongo (snd (main w)) = mongo w.
Proof.
  intros E B R Hrows F P err. subst err.
  generalize (main_cases w). rewrite init_run, E. simpl. rewrite B, csv_run, R.
  apply records_of_nil in Hrows. rewrite Hrows.
  rewrite insert_run, insert_body_reachable by assumption.
  simpl. intros ->. simpl. rewrite <- !app_assoc.
  repeat split.
Qed.

Lemma main_empty_file_witness :
  fst (main {| environ := [(lit "MONGO_DB_URL", lit "mongodb://h")];
               read_csv_result := fun _ =>
                 Return {| columns := [lit "id"; lit "url"]; rows := [] |};
               certifi_where := lit "/opt/certifi/cacert.pem";
               mongo := open_store; next_oid := 0; events := [] |}) =
    Raise (NetworkSecurityException
             (Exc (OtherError (lit "TypeError")
                     (lit "documents must be a non-empty list"))) NoCause).
Proof.
  exact (proj1 (main_empty_file
                  {| environ := [(lit "MONGO_DB_URL", lit "mongodb://h")];
                     read_csv_result := fun _ =>
                       Return {| columns := [lit "id"; lit "url"]; rows := [] |};
                     certifi_where := lit "/opt/certifi/cacert.pem";
                     mongo := open_store; next_oid := 0; events := [] |}
                  (lit "mongodb://h")
                  {| columns := [lit "id"; lit "url"]; rows := [] |}
                  eq_refl eq_refl eq_refl eq_refl eq_refl eq_refl)).
Defined.

(** ** Names the driver refuses *)

(** An empty database name, a [$] in the collection name: the insertion
    raises the wrapped [InvalidName] after the ping and sends no batch. *)
Example invalid_names_run :
  fst (insert_data_mongodb sample_self duplicate_records (lit "") (lit "a$b")
         (sample_world open_store)) =
    Raise (NetworkSecurityException (Exc (InvalidName Database_empty [])) NoCause)
  /\ fst (insert_data_mongodb sample_self duplicate_records DATABASE (lit "a$b")
            (sample_world open_store)) =
     Raise (NetworkSecurityException
              (Exc (InvalidName Collection_dollar (lit "a$b"))) NoCause)
  /\ fst (insert_data_mongodb sample_self duplicate_records DATABASE (lit "..")
            (sample_world unique_store)) =
     Raise (NetworkSecurityException
              (Exc (InvalidName Collection_empty (lit ".."))) NoCause)
  /\ write_attempted
       (events (snd (insert_data_mongodb sample_self duplicate_records DATABASE
                       (lit "..") (sample_world unique_store)))) = false.
Proof. repeat split. Qed.

(** ** What the entry point prints *)

Lemma init_world (w : world) : snd (__init__ w) = w.
Proof.
  rewrite init_run. destruct (blank _); [reflexivity|].
  now destruct (env_lookup _ _).
Qed.

Lemma csv_world (self : t) (file_path : str) (w : world) :
  snd (csv_to_json_convertor self file_path w) =
    add_event (Ev_read_csv file_path) w.
Proof. rewrite csv_run. now destruct (read_csv_result w file_path). Qed.

(** A printed count reads back as the number it stands for. *)
Lemma str_of_nat_decimal (n : nat) : decimal_value (str_of_nat n) = Some n.
Proof.
  unfold decimal_value, str_of_nat, lit.
  rewrite map_map.
  rewrite (map_ext _ (fun a => a)) by apply ascii_N_embedding.
  rewrite map_id, string_of_list_ascii_of_string.
  destruct (Nat.to_uint n) eqn:E;
    try (rewrite NilZero.usu by discriminate; simpl; rewrite <- E;
         now rewrite DecimalNat.Unsigned.of_to).
  simpl. rewrite <- (DecimalNat.Unsigned.of_to n), E. reflexivity.
Qed.

(** C9: the entry point runs construction, loading and insertion in turn.
    When construction or loading raises [e], the next thing printed, and the
    last, is [e], and [e] leaves the program.  When both succeed, the line
    with the number of records loaded is printed before the insertion talks
    to the driver; the insertion prints nothing itself; when it returns [n]
    the line with [n] is printed last and the program returns, and when it
    raises [e], [e] is printed last and leaves the program.  The numbers are
    printed in decimal. *)
Theorem main_reports (w : world) :
  (forall e, fst (__init__ w) = Raise e ->
     fst (main w) = Raise e
     /\ events (snd (main w)) = events w ++ [Ev_print_exception e])
  /\ (forall extractor, fst (__init__ w) = Return extractor ->
      (forall e,
         fst (csv_to_json_convertor extractor FILE_PATH w) = Raise e ->
         fst (main w) = Raise e
         /\ events (snd (main w)) =
            events w ++ [Ev_read_csv FILE_PATH; Ev_print_exception e])
      /\ (forall records,
            fst (csv_to_json_convertor extractor FILE_PATH w) = Return records ->
            let line := lit "Loaded " ++ str_of_nat (length records)
                        ++ lit " records from CSV" in
            let start :=
              snd (print line
                     (snd (csv_to_json_convertor extractor FILE_PATH w))) in
            let ins :=
              insert_data_mongodb extractor records DATABASE COLLECTION start in
            exists driver,
              existsb is_print driver = false
              /\ (forall e, fst ins = Raise e ->
                  fst (main w) = Raise e
                  /\ events (snd (main w)) =
                     events w ++ [Ev_read_csv FILE_PATH; Ev_print line]
                     ++ driver ++ [Ev_print_exception e])
              /\ (forall n, fst ins = Return n ->
                  fst (main w) = Return tt
                  /\ events (snd (main w)) =
                     events w ++ [Ev_read_csv FILE_PATH; Ev_print line]
                     ++ driver
                     ++ [Ev_print (lit "Inserted " ++ str_of_nat n
                                   ++ lit " records")])))
  /\ (forall n, decimal_value (str_of_nat n) = Some n).
Proof.
  split; [|split; [|apply str_of_nat_decimal]].
  - intros e He. generalize (main_cases w) (init_world w).
    destruct (__init__ w) as [[extractor|e0] w1]; [discriminate|].
    simpl in *. inversion He; subst. intros -> ->. split; reflexivity.
  - intros extractor Hinit. generalize (main_cases w) (init_world w).
    destruct (__init__ w) as [[extractor0|e0] w1]; [|discriminate].
    simpl in Hinit. inversion Hinit; subst extractor0. simpl. intros H ->.
    generalize (csv_world extractor FILE_PATH w). revert H.
    destruct (csv_to_json_convertor extractor FILE_PATH w) as [[records0|e1] w2].
    + simpl. intros H ->. split; [discriminate|].
      intros records Hr. inversion Hr; subst records0. cbv zeta.
      destruct (insert_prints_nothing extractor records DATABASE COLLECTION
                  (snd (print (lit "Loaded " ++ str_of_nat (length records)
                               ++ lit " records from CSV")
                          (add_event (Ev_read_csv FILE_PATH) w))))
        as (driver & Hev & Hnp).
      exists driver. split; [exact Hnp|].
      change (add_event
                (Ev_print (loaded_line (length records)))
                (add_event (Ev_read_csv FILE_PATH) w))
        with (snd (print (lit "Loaded " ++ str_of_nat (length records)
                          ++ lit " records from CSV")
                     (add_event (Ev_read_csv FILE_PATH) w))) in H.
      destruct (insert_data_mongodb extractor records DATABASE COLLECTION _)
        as [[n|e] w3].
      * split; [discriminate|]. intros n0 Hn. inversion Hn; subst n0.
        rewrite H. split; [reflexivity|].
        cbn [snd add_event events]. simpl in Hev. rewrite Hev.
        unfold inserted_line. rewrite <- !app_assoc. reflexivity.
      * split; [|discriminate]. intros e0 He. inversion He; subst e0.
        rewrite H. split; [reflexivity|].
        cbn [snd add_event events]. simpl in Hev. rewrite Hev.
        rewrite <- !app_assoc. reflexivity.
    + simpl. intros H ->. split; [|discriminate].
      intros e He. inversion He; subst e1. rewrite H.
      split; [reflexivity|]. simpl. now rewrite <- app_assoc.
Qed.

Lemma main_reports_witness :
  (exists driver,
     existsb is_print driver = false
     /\ fst (main (sample_world open_store)) = Return tt
     /\ events (snd (main (sample_world open_store))) =
        [Ev_read_csv FILE_PATH; Ev_print (lit "Loaded 3 records from CSV")]
        ++ driver ++ [Ev_print (lit "Inserted 3 records")])
  /\ (exists driver,
       existsb is_print driver = false
       /\ fst (main (sample_world (no_ping_store auth_failure))) =
          Raise (NetworkSecurityException (Exc auth_failure) NoCause)
       /\ events (snd (main (sample_world (no_ping_store auth_failure)))) =
          [Ev_read_csv FILE_PATH; Ev_print (lit "Loaded 3 records from CSV")]
          ++ driver
          ++ [Ev_print_exception
                (NetworkSecurityException (Exc auth_failure) NoCause)]).
Proof.
  split.
  - destruct (proj2 (proj1 (proj2 (main_reports (sample_world open_store)))
                       sample_self eq_refl) _ eq_refl)
      as (driver & Hnp & _ & Hok).
    destruct (Hok 3 eq_refl) as (Hret & Hev).
    exists driver. split; [exact Hnp|]. split; [exact Hret | exact Hev].
  - destruct (proj2 (proj1 (proj2 (main_reports
                                     (sample_world (no_ping_store auth_failure))))
                       sample_self eq_refl) _ eq_refl)
      as (driver & Hnp & Herr & _).
    destruct (Herr _ eq_refl) as (Hret & Hev).
    exists driver. split; [exact Hnp|]. split; [exact Hret | exact Hev].
Defined.
